(** * The HackNu wallet: the API client module ([@/lib/api-client]) and
      the wallet screen ([TransactionsScreen]) that drives it.

    The TypeScript sources are a thin asynchronous client: every operation
    builds a request, awaits [fetch], inspects the response and either
    returns the parsed body or throws.  The embedding keeps that shape:

    - a JavaScript [number] is an IEEE-754 binary64 value ([spec_float]
      with precision 53 and maximal exponent 1024);
    - a JSON document is a tree ([JSON]); what [JSON.stringify] puts on
      the wire and what [response.json()] gives back are such trees;
    - an [async] function is a program ([Prog]) whose interactions with
      the outside world (fetches, React state setters, alerts) are
      explicit, so that it can be run against any backend ([run]) and its
      trace of events inspected. *)

From Stdlib Require Import ZArith QArith Lia.
From Stdlib Require Import SpecFloat Ascii DecimalString.
From stdpp Require Import base gmap strings list.

Open Scope Z_scope.
Open Scope string_scope.

(** ** JavaScript numbers *)

Module Js.

Definition number : Type := spec_float.

Definition prec : Z := 53.
Definition emax : Z := 1024.

(** The binary64 value nearest to [m * 2^e] (integer literals are [ofZ m]). *)
Definition num (m e : Z) : number := binary_normalize prec emax m e false.
Definition ofZ (z : Z) : number := num z 0.

Definition is_valid (x : number) : bool := valid_binary prec emax x.

(** [x * y], [x <= y], [x < y] on numbers. *)
Definition mul (x y : number) : number := SFmul prec emax x y.
Definition leb (x y : number) : bool := SFleb x y.
Definition ltb (x y : number) : bool := SFltb x y.

Definition isNaN (x : number) : bool :=
  match x with S754_nan => true | _ => false end.

Definition isFinite (x : number) : bool :=
  match x with S754_zero _ | S754_finite _ _ _ => true | _ => false end.

(** ToBoolean on a number: [+0], [-0] and [NaN] are falsy. *)
Definition truthy (x : number) : bool :=
  match x with S754_zero _ | S754_nan => false | _ => true end.

(** The real value of a finite number, as a rational. *)
Definition value (x : number) : Q :=
  match x with
  | S754_finite s m e =>
      let q := match e with
               | Zneg p => Qmake (Zpos m) (2 ^ p)%positive
               | _ => inject_Z (Zpos m * 2 ^ e)
               end in
      if s then Qopp q else q
  | _ => 0%Q
  end.

(** *** Number.prototype.toFixed and Number(string)

    [x.toFixed(f)] (ECMA-262, 21.1.3.3) returns a string.  Non-finite
    numbers print as [NaN], [Infinity], [-Infinity]; a finite number of
    magnitude at least 10^21 prints as [Number::toString] does; otherwise
    the result is the sign and the decimal digits of the integer [n] for
    which [n / 10^f - |x|] is as close to zero as possible, the larger
    [n] when there are two, with a point before the last [f] digits.  The
    string is kept in this structured form. *)

Inductive FixedString : Type :=
| FS_NaN
| FS_Infinity (neg : bool)
| FS_ToString (x : number)
| FS_Decimal (neg : bool) (n : Z) (f : Z).

(** The integer [n] of [toFixed] for the magnitude [m * 2^e]:
    [floor (10^f * m * 2^e + 1/2)]. *)
Definition scaled_round (f : Z) (m : positive) (e : Z) : Z :=
  match e with
  | Zneg p => (2 * 10 ^ f * Zpos m + 2 ^ Zpos p) / (2 * 2 ^ Zpos p)
  | _ => 10 ^ f * Zpos m * 2 ^ e
  end.

Definition ten21 : number := ofZ (10 ^ 21).

Definition toFixed (x : number) (f : Z) : FixedString :=
  match x with
  | S754_nan => FS_NaN
  | S754_infinity s => FS_Infinity s
  | S754_zero _ => FS_Decimal false 0 f
  | S754_finite s m e =>
      if ltb (SFabs x) ten21 then FS_Decimal s (scaled_round f m e) f
      else FS_ToString x
  end.

(** [Number(s)] on such a string (ECMA-262, 7.1.4.1.1): the binary64
    value nearest to the decimal it denotes, ties to even; ["-0.00"] is
    [-0]; [Number::toString] round-trips. *)
Definition Number (s : FixedString) : number :=
  match s with
  | FS_NaN => S754_nan
  | FS_Infinity neg => S754_infinity neg
  | FS_ToString x => x
  | FS_Decimal neg n f =>
      match n with
      | Zpos p => SFdiv prec emax (S754_finite neg p 0) (ofZ (10 ^ f))
      | _ => S754_zero neg
      end
  end.

End Js.

(** ** JSON documents and JavaScript exceptions *)

#[warnings="-register-all"]
Inductive JSON : Type :=
| JNull
| JBool (b : bool)
| JNumber (x : Js.number)
| JString (s : string)
| JArray (items : list JSON)
| JObject (fields : list (string * JSON)).

(** Own property [k] of a parsed object (keys of a parsed object are unique). *)
Fixpoint assoc (k : string) (fields : list (string * JSON)) : option JSON :=
  match fields with
  | [] => None
  | (k', v) :: rest => if String.eqb k k' then Some v else assoc k rest
  end.

Definition keys (fields : list (string * JSON)) : list string := map fst fields.

(** What [JSON.stringify] writes for a number-valued field: [NaN] and the
    infinities become [null], [-0] becomes [0]. *)
Definition json_number (x : Js.number) : JSON :=
  match x with
  | S754_nan | S754_infinity _ => JNull
  | S754_zero _ => JNumber (S754_zero false)
  | S754_finite _ _ _ => JNumber x
  end.

(** A field whose value is [undefined] is left out by [JSON.stringify]. *)
Definition optional_field (k : string) (v : option string) : list (string * JSON) :=
  match v with
  | Some s => [(k, JString s)]
  | None => []
  end.

(** Thrown values: [Error] and the two built-in subclasses the host raises. *)
Inductive Exn : Type :=
| Error (message : string)
| TypeError (message : string)
| SyntaxError (message : string).

Definition message (e : Exn) : string :=
  match e with Error m | TypeError m | SyntaxError m => m end.

(** [v?.[k]] for a key [k] that is neither [length] nor an index:
    [undefined] (here [None]) unless [v] is an object owning [k]. *)
Definition opt_prop (k : string) (v : option JSON) : option JSON :=
  match v with
  | Some (JObject fields) => assoc k fields
  | _ => None
  end.

(** [v.k] for such a key: reading a property of [null] throws. *)
Definition prop (k : string) (v : JSON) : Exn + option JSON :=
  match v with
  | JNull => inl (TypeError ("Cannot read properties of null (reading '" ++ k ++ "')"))
  | _ => inr (opt_prop k (Some v))
  end.

(** ** Requests, responses and asynchronous programs *)

Inductive Method : Type := GET | POST.

(** A URL is kept as its part before [?] and its query entries. *)
Record Url : Type := { base : string; query : list (string * string) }.

Record Request : Type :=
  { method : Method;
    url : Url;
    headers : list (string * string);
    body : option JSON }.

(** [json] is what awaiting [response.json()] yields: the parsed body, or
    the rejection raised on a malformed body. *)
Record Response : Type := { ok : bool; json : Exn + JSON }.

Inductive TransactionModalType : Type := deposit_modal | withdrawal_modal | transfer_modal.

(** React state setters and alerts of the wallet screen. *)
Inductive UiAction : Type :=
| setLoading (b : bool)
| setAccount (a : option JSON)
| setTransactions (t : JSON)
| setProcessing (b : bool)
| setModalType (m : option TransactionModalType)
| setAmount (s : string)
| setToAccountId (s : string)
| setDescription (s : string)
| alert (msg : string)
| Alert_alert (title msg : string).

(** An [async] function body: it returns, throws, awaits a [fetch] (which
    rejects or resolves to a response) or performs a UI action. *)
Inductive Prog (A : Type) : Type :=
| Ret (a : A)
| Throw (e : Exn)
| Fetch (rq : Request) (k : Exn + Response -> Prog A)
| Act (u : UiAction) (k : Prog A).

Arguments Ret {A} a.
Arguments Throw {A} e.
Arguments Fetch {A} rq k.
Arguments Act {A} u k.

Fixpoint bind {A B : Type} (p : Prog A) (f : A -> Prog B) : Prog B :=
  match p with
  | Ret a => f a
  | Throw e => Throw e
  | Fetch rq k => Fetch rq (fun r => bind (k r) f)
  | Act u k => Act u (bind k f)
  end.

#[export] Instance Prog_ret : MRet Prog := @Ret.
#[export] Instance Prog_bind : MBind Prog := fun A B f p => bind p f.

(** [try { p } catch (e) { h e }] *)
Fixpoint try_catch {A : Type} (p : Prog A) (h : Exn -> Prog A) : Prog A :=
  match p with
  | Ret a => Ret a
  | Throw e => h e
  | Fetch rq k => Fetch rq (fun r => try_catch (k r) h)
  | Act u k => Act u (try_catch k h)
  end.

(** [try { p } finally { f }] *)
Fixpoint finally {A : Type} (p : Prog A) (f : Prog unit) : Prog A :=
  match p with
  | Ret a => bind f (fun _ => Ret a)
  | Throw e => bind f (fun _ => Throw e)
  | Fetch rq k => Fetch rq (fun r => finally (k r) f)
  | Act u k => Act u (finally k f)
  end.

Definition fetch (rq : Request) : Prog Response :=
  Fetch rq (fun r => match r with inl e => Throw e | inr res => Ret res end).

Definition act (u : UiAction) : Prog unit := Act u (Ret tt).

(** Awaiting a promise that is already settled. *)
Definition await {A : Type} (r : Exn + A) : Prog A :=
  match r with inl e => Throw e | inr a => Ret a end.

(** *** Running a program against a backend

    A backend answers each request from its current state.  Running a
    program yields how it ended, the events in the order they happened,
    and the final backend state. *)

Inductive Outcome (A : Type) : Type :=
| Returned (a : A)
| Threw (e : Exn).

Arguments Returned {A} a.
Arguments Threw {A} e.

Inductive Event : Type :=
| Fetched (rq : Request) (r : Exn + Response)
| Acted (u : UiAction).

Definition Server (S : Type) : Type := S -> Request -> (Exn + Response) * S.

Fixpoint run {A S : Type} (srv : Server S) (p : Prog A) (s : S)
  : Outcome A * list Event * S :=
  match p with
  | Ret a => (Returned a, [], s)
  | Throw e => (Threw e, [], s)
  | Fetch rq k =>
      let '(r, s1) := srv s rq in
      let '(o, t, s2) := run srv (k r) s1 in
      (o, Fetched rq r :: t, s2)
  | Act u k =>
      let '(o, t, s1) := run srv k s in
      (o, Acted u :: t, s1)
  end.

Definition outcome {A S : Type} (x : Outcome A * list Event * S) : Outcome A := x.1.1.
Definition trace {A S : Type} (x : Outcome A * list Event * S) : list Event := x.1.2.
Definition final {A S : Type} (x : Outcome A * list Event * S) : S := x.2.

(** The requests of a trace, in order. *)
Definition requests (t : list Event) : list Request :=
  omap (fun ev => match ev with Fetched rq _ => Some rq | Acted _ => None end) t.

(** A fetch succeeded for the caller when it resolved to an [ok] response
    whose body parsed. *)
Definition succeeded (r : Exn + Response) : bool :=
  match r with
  | inr {| ok := true; json := inr _ |} => true
  | _ => false
  end.

(** ** The API client ([@/lib/api-client]) *)

Inductive SupportedCrypto : Type := BTC | ETH | USDT.

#[export] Instance SupportedCrypto_eq_dec : EqDecision SupportedCrypto.
Proof. solve_decision. Defined.

#[export] Instance SupportedCrypto_countable : Countable SupportedCrypto.
Proof.
  refine (inj_countable'
            (fun s => match s with BTC => 0%nat | ETH => 1%nat | USDT => 2%nat end)
            (fun n => match n with 0%nat => BTC | 1%nat => ETH | _ => USDT end) _).
  intros []; reflexivity.
Defined.

(** The symbol as the string it is at run time. *)
Definition symbol_name (s : SupportedCrypto) : string :=
  match s with BTC => "BTC" | ETH => "ETH" | USDT => "USDT" end.

Record TransactionDepositRequest : Type :=
  { dep_account_id : Js.number;
    dep_amount : Js.number;
    dep_currency : string;
    dep_description : option string }.

Record TransactionWithdrawalRequest : Type :=
  { wd_account_id : Js.number;
    wd_amount : Js.number;
    wd_currency : string;
    wd_description : option string }.

Record TransactionTransferRequest : Type :=
  { tr_from_account_id : Js.number;
    tr_to_account_id : Js.number;
    tr_amount : Js.number;
    tr_currency : string;
    tr_description : option string }.

Record AccountCreate : Type :=
  { ac_user_id : Js.number;
    ac_account_type : string;
    ac_balance : option Js.number;
    ac_currency : string }.

(** [JSON.stringify(data)] for each request type. *)
Definition stringify_deposit (d : TransactionDepositRequest) : JSON :=
  JObject ([("account_id", json_number (dep_account_id d));
            ("amount", json_number (dep_amount d));
            ("currency", JString (dep_currency d))]
           ++ optional_field "description" (dep_description d))%list.

Definition stringify_withdrawal (d : TransactionWithdrawalRequest) : JSON :=
  JObject ([("account_id", json_number (wd_account_id d));
            ("amount", json_number (wd_amount d));
            ("currency", JString (wd_currency d))]
           ++ optional_field "description" (wd_description d))%list.

Definition stringify_transfer (d : TransactionTransferRequest) : JSON :=
  JObject ([("from_account_id", json_number (tr_from_account_id d));
            ("to_account_id", json_number (tr_to_account_id d));
            ("amount", json_number (tr_amount d));
            ("currency", JString (tr_currency d))]
           ++ optional_field "description" (tr_description d))%list.

Definition stringify_account (d : AccountCreate) : JSON :=
  JObject ([("user_id", json_number (ac_user_id d));
            ("account_type", JString (ac_account_type d))]
           ++ match ac_balance d with
              | Some b => [("balance", json_number b)]
              | None => []
              end
           ++ [("currency", JString (ac_currency d))])%list.

Record ConvertParams : Type :=
  { userId : Js.number;
    fromAccountId : Js.number;
    fromSymbol : SupportedCrypto;
    amountCrypto : Js.number;
    toKZTAccountId : Js.number;
    rateKZTPerCrypto : Js.number }.

Record ConvertResult : Type :=
  { withdrawal : JSON; deposit : JSON; kztAmount : Js.number }.

Record TransactionFilters : Type :=
  { account_id : option Js.number;
    transaction_type : option string;
    skip : option Js.number;
    limit : option Js.number }.

Definition json_headers : list (string * string) :=
  [("Content-Type", "application/json"); ("Accept", "application/json")].

Definition accept_headers : list (string * string) :=
  [("Accept", "application/json")].

Definition idMap (s : SupportedCrypto) : string :=
  match s with BTC => "bitcoin" | ETH => "ethereum" | USDT => "tether" end.

(** The body of the [symbols.forEach] callback, folded over the symbols:
    the first symbol without a numeric price aborts the loop by throwing. *)
Fixpoint collect_rates (data : JSON) (symbols : list SupportedCrypto)
    (result : gmap SupportedCrypto Js.number) : Exn + gmap SupportedCrypto Js.number :=
  match symbols with
  | [] => inr result
  | sym :: rest =>
      let id := idMap sym in
      let price := opt_prop "kzt" (opt_prop id (Some data)) in
      match price with
      | Some (JNumber p) => collect_rates data rest (<[sym := p]> result)
      | _ => inl (Error ("Rate for " ++ symbol_name sym ++ " not available"))
      end
  end.

Definition getCryptoRatesKZT (symbols : list SupportedCrypto)
  : Prog (gmap SupportedCrypto Js.number) :=
  let ids := String.concat "," (map idMap symbols) in
  let url := {| base := "https://api.coingecko.com/api/v3/simple/price";
                query := [("ids", ids); ("vs_currencies", "kzt")] |} in
  res ← fetch {| method := GET; url := url; headers := []; body := None |};
  if negb (ok res) then Throw (Error "Failed to fetch crypto rates")
  else
    data ← await (json res);
    await (collect_rates data symbols ∅).

Section ApiClient.

(** [config.backendURL] (module [./config]) and [Number::toString],
    which template literals and [String(..)] apply to a number. *)
Variable backendURL : string.
Variable toString : Js.number -> string.

(** The tail shared by every backend call: a response that is not [ok]
    is read as an [ApiError] and thrown as an [Error] carrying its
    [detail] when that is a string, [fallback] otherwise; an [ok]
    response is returned parsed. *)
Definition settle (fallback : string) (response : Response) : Prog JSON :=
  if negb (ok response) then
    error ← await (json response);
    detail ← await (prop "detail" error);
    let errorMsg := match detail with
                    | Some (JString s) => s
                    | _ => fallback
                    end in
    Throw (Error errorMsg)
  else await (json response).

Definition getUserAccounts (userId : Js.number) : Prog JSON :=
  let url := {| base := backendURL ++ "/api/accounts/user/" ++ toString userId;
                query := [] |} in
  response ← fetch {| method := GET; url := url; headers := accept_headers; body := None |};
  settle "Failed to fetch accounts" response.

Definition createAccount (data : AccountCreate) : Prog JSON :=
  let url := {| base := backendURL ++ "/api/accounts"; query := [] |} in
  response ← fetch {| method := POST; url := url; headers := json_headers;
                      body := Some (stringify_account data) |};
  settle "Failed to create account" response.

(** [new URLSearchParams({skip, limit})] followed by the two conditional
    [append]s. *)
Definition transaction_params (filters : option TransactionFilters) : list (string * string) :=
  let params := [("skip", toString (default (Js.ofZ 0) (filters ≫= skip)));
                 ("limit", toString (default (Js.ofZ 100) (filters ≫= limit)))] in
  let params := match filters ≫= account_id with
                | Some a => if Js.truthy a then (params ++ [("account_id", toString a)])%list else params
                | None => params
                end in
  match filters ≫= transaction_type with
  | Some t => if String.eqb t "" then params else (params ++ [("transaction_type", t)])%list
  | None => params
  end.

Definition getUserTransactions (userId : Js.number) (filters : option TransactionFilters)
  : Prog JSON :=
  let params := transaction_params filters in
  let url := {| base := backendURL ++ "/api/transactions/user/" ++ toString userId;
                query := params |} in
  response ← fetch {| method := GET; url := url; headers := accept_headers; body := None |};
  settle "Failed to fetch transactions" response.

Definition deposit_request (userId : Js.number) (data : TransactionDepositRequest) : Request :=
  {| method := POST;
     url := {| base := backendURL ++ "/api/transactions/deposit";
               query := [("user_id", toString userId)] |};
     headers := json_headers;
     body := Some (stringify_deposit data) |}.

Definition createDeposit (userId : Js.number) (data : TransactionDepositRequest) : Prog JSON :=
  response ← fetch (deposit_request userId data);
  settle "Failed to create deposit" response.

Definition withdrawal_request (userId : Js.number) (data : TransactionWithdrawalRequest) : Request :=
  {| method := POST;
     url := {| base := backendURL ++ "/api/transactions/withdrawal";
               query := [("user_id", toString userId)] |};
     headers := json_headers;
     body := Some (stringify_withdrawal data) |}.

Definition createWithdrawal (userId : Js.number) (data : TransactionWithdrawalRequest) : Prog JSON :=
  response ← fetch (withdrawal_request userId data);
  settle "Failed to create withdrawal" response.

Definition transfer_request (userId : Js.number) (data : TransactionTransferRequest) : Request :=
  {| method := POST;
     url := {| base := backendURL ++ "/api/transactions/transfer";
               query := [("user_id", toString userId)] |};
     headers := json_headers;
     body := Some (stringify_transfer data) |}.

Definition createTransfer (userId : Js.number) (data : TransactionTransferRequest) : Prog JSON :=
  response ← fetch (transfer_request userId data);
  settle "Failed to create transfer" response.

(** The two request payloads [convertCryptoToKZT] builds. *)
Definition conversion_withdrawal (p : ConvertParams) : TransactionWithdrawalRequest :=
  {| wd_account_id := fromAccountId p;
     wd_amount := amountCrypto p;
     wd_currency := symbol_name (fromSymbol p);
     wd_description :=
       Some ("Convert " ++ toString (amountCrypto p) ++ " " ++ symbol_name (fromSymbol p) ++ " to KZT") |}.

Definition conversion_deposit (p : ConvertParams) (kztAmount : Js.number) : TransactionDepositRequest :=
  {| dep_account_id := toKZTAccountId p;
     dep_amount := Js.Number (Js.toFixed kztAmount 2);
     dep_currency := "KZT";
     dep_description :=
       Some ("Converted from " ++ toString (amountCrypto p) ++ " " ++ symbol_name (fromSymbol p)) |}.

Definition convertCryptoToKZT (p : ConvertParams) : Prog ConvertResult :=
  if Js.leb (amountCrypto p) (Js.ofZ 0) then Throw (Error "Amount must be positive")
  else
    let kztAmount := Js.mul (amountCrypto p) (rateKZTPerCrypto p) in
    withdrawal ← createWithdrawal (userId p) (conversion_withdrawal p);
    deposit ← createDeposit (userId p) (conversion_deposit p kztAmount);
    mret {| withdrawal := withdrawal; deposit := deposit; kztAmount := kztAmount |}.

End ApiClient.

(** ** The wallet screen ([TransactionsScreen]) *)

Record UserData : Type :=
  { id : Js.number; name : string; surname : string; email : string }.

(** The [Account] interface of the API client, the declared type of the
    screen's [account] state. *)
Record Account : Type :=
  { acc_id : Js.number;
    acc_user_id : Js.number;
    acc_account_type : string;
    acc_balance : string;
    acc_currency : string;
    acc_status : string;
    acc_created_at : string;
    acc_updated_at : string;
    acc_deleted_at : option string }.

(** Only KZT currency is supported *)
Definition CURRENCY : string := "KZT".

Section WalletScreen.

Variable backendURL : string.
Variable toString : Js.number -> string.

(** Host functions and constants the screen uses: the global [parseFloat]
    and [parseInt], [Platform.OS] of react-native, and the abstract
    operation ToNumber on a string, an array or an object, which [>]
    applies to an operand that is none of number, boolean, null and
    undefined.  ToNumber throws a [TypeError] on an object or an array
    that cannot be made a primitive (an own [toString] that is not
    callable, for one). *)
Variable parseFloat : string -> Js.number.
Variable parseInt : string -> Js.number.
Variable Platform_OS : string.
Variable ToNumber : JSON -> Exn + Js.number.

(** [v.length === 0] *)
Definition length_is_zero (v : JSON) : Exn + bool :=
  match v with
  | JNull => inl (TypeError "Cannot read properties of null (reading 'length')")
  | JArray items => inr (match items with [] => true | _ => false end)
  | JString s => inr (String.eqb s "")
  | JObject fields =>
      inr (match assoc "length" fields with
           | Some (JNumber (S754_zero _)) => true
           | _ => false
           end)
  | JBool _ | JNumber _ => inr false
  end.

(** [v > 0] for a property value [v] ([None] is [undefined]). *)
Definition gt_zero (v : option JSON) : Exn + bool :=
  match v with
  | None | Some JNull => inr false
  | Some (JBool b) => inr b
  | Some (JNumber x) => inr (Js.ltb (Js.ofZ 0) x)
  | Some other =>
      match ToNumber other with
      | inl e => inl e
      | inr x => inr (Js.ltb (Js.ofZ 0) x)
      end
  end.

(** [v.length > 0] *)
Definition length_is_positive (v : JSON) : Exn + bool :=
  match v with
  | JNull => inl (TypeError "Cannot read properties of null (reading 'length')")
  | JArray items => inr (match items with [] => false | _ => true end)
  | JString s => inr (negb (String.eqb s ""))
  | JObject fields => gt_zero (assoc "length" fields)
  | JBool _ | JNumber _ => inr false
  end.

(** [v[0]] *)
Definition first_item (v : JSON) : Exn + option JSON :=
  match v with
  | JNull => inl (TypeError "Cannot read properties of null (reading '0')")
  | JArray items => inr (head items)
  | JString s => inr (match s with
                      | EmptyString => None
                      | String c _ => Some (JString (String c EmptyString))
                      end)
  | JObject fields => inr (assoc "0" fields)
  | JBool _ | JNumber _ => inr None
  end.

(** [v.length] read for its value alone, as the argument of a
    [console.log]: reading a property of [null] throws. *)
Definition read_length (v : JSON) : Exn + unit :=
  match v with
  | JNull => inl (TypeError "Cannot read properties of null (reading 'length')")
  | _ => inr tt
  end.

(** [alert] on the web, [Alert.alert] elsewhere. *)
Definition notify (title web_msg msg : string) : Prog unit :=
  if String.eqb Platform_OS "web" then act (alert web_msg) else act (Alert_alert title msg).

(** [loadData].  The [console] calls are left out; the one property
    read among their arguments, [transactionsData.length], is kept, since
    it throws on a [null] reply. *)
Definition loadData (user : option UserData) : Prog unit :=
  match user with
  | None => Ret tt
  | Some u =>
      if negb (Js.truthy (id u)) then Ret tt
      else
        finally
          (try_catch
             (act (setLoading true);;
              accountsData ← getUserAccounts backendURL toString (id u);
              none ← await (length_is_zero accountsData);
              accountsData ←
                (if none : bool then
                   newAccount ← createAccount backendURL
                                  {| ac_user_id := id u;
                                     ac_account_type := "checking";
                                     ac_balance := Some (Js.ofZ 0);
                                     ac_currency := "KZT" |};
                   mret (JArray [newAccount])
                 else mret accountsData);
              transactionsData ←
                getUserTransactions backendURL toString (id u)
                  (Some {| account_id := None; transaction_type := None;
                           skip := None; limit := Some (Js.ofZ 100) |});
              await (read_length transactionsData);;
              some ← await (length_is_positive accountsData);
              (if some : bool then
                 first ← await (first_item accountsData);
                 act (setAccount first)
               else mret tt);;
              act (setTransactions transactionsData))
             (fun error =>
                let errorMessage :=
                  if String.eqb (message error) "" then "Failed to load data. Please try again."
                  else message error in
                notify "Error loading data" ("Error loading data: " ++ errorMessage) errorMessage))
          (act (setLoading false))
  end.

Definition closeModal : Prog unit :=
  act (setModalType None);;
  act (setAmount "");;
  act (setToAccountId "");;
  act (setDescription "").

(** [description || undefined] *)
Definition or_undefined (s : string) : option string :=
  if String.eqb s "" then None else Some s.

(** [handleTransaction], reading the component state it closes over.
    The try block yields [false] when it leaves through its [return]. *)
Definition handleTransaction (user : option UserData) (account : option Account)
    (modalType : option TransactionModalType) (amount toAccountId description : string)
  : Prog unit :=
  match user, account with
  | Some u, Some a =>
      let amountNum := parseFloat amount in
      if Js.isNaN amountNum || Js.leb amountNum (Js.ofZ 0) then
        notify "Invalid Amount" "Please enter a valid amount" "Please enter a valid amount"
      else
        finally
          (try_catch
             (act (setProcessing true);;
              sent ←
                match modalType with
                | Some deposit_modal =>
                    createDeposit backendURL toString (id u)
                      {| dep_account_id := acc_id a; dep_amount := amountNum;
                         dep_currency := CURRENCY;
                         dep_description := or_undefined description |};;
                    mret true
                | Some withdrawal_modal =>
                    createWithdrawal backendURL toString (id u)
                      {| wd_account_id := acc_id a; wd_amount := amountNum;
                         wd_currency := CURRENCY;
                         wd_description := or_undefined description |};;
                    mret true
                | Some transfer_modal =>
                    let toAccountIdNum := parseInt toAccountId in
                    if Js.isNaN toAccountIdNum || Js.leb toAccountIdNum (Js.ofZ 0) then
                      notify "Invalid Account ID" "Please enter a valid account ID"
                        "Please enter a valid account ID";;
                      mret false
                    else
                      createTransfer backendURL toString (id u)
                        {| tr_from_account_id := acc_id a;
                           tr_to_account_id := toAccountIdNum;
                           tr_amount := amountNum;
                           tr_currency := CURRENCY;
                           tr_description := or_undefined description |};;
                      mret true
                | None => mret true
                end;
              if sent : bool then
                closeModal;;
                loadData user;;
                notify "Success" "Transaction completed successfully!"
                  "Transaction completed successfully!"
              else mret tt)
             (fun error =>
                notify "Error" ("Error: " ++ message error) (message error)))
          (act (setProcessing false))
  | _, _ => Ret tt
  end.

End WalletScreen.

(** ** Derived descriptions of a run *)

(** How a backend call ends, as a function of the response alone. *)
Definition settled (fallback : string) (response : Response) : Outcome JSON :=
  match json response with
  | inl e => Threw e
  | inr j =>
      if ok response then Returned j
      else match prop "detail" j with
           | inl e => Threw e
           | inr (Some (JString s)) => Threw (Error s)
           | inr _ => Threw (Error fallback)
           end
  end.

Definition answered (fallback : string) (r : Exn + Response) : Outcome JSON :=
  match r with
  | inl e => Threw e
  | inr response => settled fallback response
  end.


(** The backend answering with document [j], and refusing with an
    [ApiError] whose detail is the given text. *)
Definition replies (j : JSON) : Exn + Response := inr {| ok := true; json := inr j |}.

Definition refuses (detail : string) : Exn + Response :=
  inr {| ok := false; json := inr (JObject [("detail", JString detail)]) |}.

(** Lookup of a query parameter. *)
Fixpoint param (k : string) (q : list (string * string)) : option string :=
  match q with
  | [] => None
  | (k', v) :: rest => if String.eqb k k' then Some v else param k rest
  end.

(** Field [k] of a request body. *)
Definition body_field (k : string) (rq : Request) : option JSON :=
  opt_prop k (body rq).

(** The usable rate the provider's document holds for a symbol. *)
Definition price_of (data : JSON) (sym : SupportedCrypto) : option Js.number :=
  match opt_prop "kzt" (opt_prop (idMap sym) (Some data)) with
  | Some (JNumber p) => Some p
  | _ => None
  end.

Definition unavailable (data : JSON) (sym : SupportedCrypto) : bool :=
  match price_of data sym with Some _ => false | None => true end.

Definition rates_request (symbols : list SupportedCrypto) : Request :=
  {| method := GET;
     url := {| base := "https://api.coingecko.com/api/v3/simple/price";
               query := [("ids", String.concat "," (map idMap symbols));
                         ("vs_currencies", "kzt")] |};
     headers := [];
     body := None |}.

(** The filter [{ limit: 100 }] the wallet screen asks with. *)
Definition first_hundred : option TransactionFilters :=
  Some {| account_id := None; transaction_type := None;
          skip := None; limit := Some (Js.ofZ 100) |}.

Section Legs.

Variable backendURL : string.
Variable toString : Js.number -> string.

(** The two requests of a conversion. *)
Definition withdrawal_leg (p : ConvertParams) : Request :=
  withdrawal_request backendURL toString (userId p) (conversion_withdrawal toString p).

Definition deposit_leg (p : ConvertParams) : Request :=
  deposit_request backendURL toString (userId p)
    (conversion_deposit toString p (Js.mul (amountCrypto p) (rateKZTPerCrypto p))).

Definition is_withdrawal (rq : Request) : Prop :=
  base (url rq) = backendURL ++ "/api/transactions/withdrawal".

Definition is_deposit (rq : Request) : Prop :=
  base (url rq) = backendURL ++ "/api/transactions/deposit".

Definition is_account_creation (rq : Request) : Prop :=
  method rq = POST /\ base (url rq) = backendURL ++ "/api/accounts".

(** A compensating reversal of a conversion: a deposit of the withdrawn
    amount back into the source account. *)
Definition is_reversal (p : ConvertParams) (rq : Request) : Prop :=
  is_deposit rq /\
  body_field "account_id" rq = Some (json_number (fromAccountId p)) /\
  body_field "amount" rq = Some (json_number (amountCrypto p)).

(** The requests [loadData] can issue for a user. *)
Definition accounts_request (u : UserData) : Request :=
  {| method := GET;
     url := {| base := backendURL ++ "/api/accounts/user/" ++ toString (id u); query := [] |};
     headers := accept_headers;
     body := None |}.

Definition default_account (u : UserData) : AccountCreate :=
  {| ac_user_id := id u; ac_account_type := "checking";
     ac_balance := Some (Js.ofZ 0); ac_currency := "KZT" |}.

Definition creation_request (u : UserData) : Request :=
  {| method := POST;
     url := {| base := backendURL ++ "/api/accounts"; query := [] |};
     headers := json_headers;
     body := Some (stringify_account (default_account u)) |}.

Definition transactions_request (userId : Js.number) (filters : option TransactionFilters)
  : Request :=
  {| method := GET;
     url := {| base := backendURL ++ "/api/transactions/user/" ++ toString userId;
               query := transaction_params toString filters |};
     headers := accept_headers;
     body := None |}.

End Legs.

(** ** The rounding the specification asks for

    Round-half-even of [10^f * m * 2^e], to compare with [Js.scaled_round]. *)
Definition spec_half_even (f : Z) (m : positive) (e : Z) : Z :=
  match e with
  | Zneg p =>
      let q := (10 ^ f * Zpos m) / 2 ^ Zpos p in
      let r := (10 ^ f * Zpos m) mod 2 ^ Zpos p in
      match (2 * r ?= 2 ^ Zpos p) with
      | Lt => q
      | Gt => q + 1
      | Eq => if Z.even q then q else q + 1
      end
  | _ => 10 ^ f * Zpos m * 2 ^ e
  end.

(** The fiat amount as the specification words it: the product rounded
    half-even to two decimal places. *)
Definition spec_fiat_amount (x : Js.number) : Js.number :=
  match x with
  | S754_finite s m e => Js.Number (Js.FS_Decimal s (spec_half_even 2 m e) 2)
  | _ => x
  end.

(** ** A sample host and scripted backends, for concrete runs *)

Module Sample.

Definition backendURL : string := "http://localhost:8000".

Definition show_Z (z : Z) : string := NilZero.string_of_int (Z.to_int z).

Fixpoint strip_zeros (rev_digits : string) : string :=
  match rev_digits with
  | String "0"%char rest => strip_zeros rest
  | _ => rev_digits
  end.

Fixpoint zeros (n : nat) : string :=
  match n with
  | O => ""
  | S n' => "0" ++ zeros n'
  end.

(** [s] with zeros in front, up to [width] characters. *)
Definition pad (width : nat) (s : string) : string :=
  zeros (width - String.length s) ++ s.

(** The exact decimal expansion of a number.  It is what
    [Number::toString] prints for an integer below 10^21 ([7], [100]) and
    for a fraction of at most 15 significant digits and magnitude at
    least 10^-6 ([0.125], [2.5]). *)
Definition toString (x : Js.number) : string :=
  match x with
  | S754_nan => "NaN"
  | S754_infinity s => if s then "-Infinity" else "Infinity"
  | S754_zero _ => "0"
  | S754_finite s m e =>
      (if s then "-" else "") ++
      match e with
      | Zneg p =>
          let ip := Zpos m / 2 ^ Zpos p in
          let fr := Zpos m mod 2 ^ Zpos p in
          if Z.eqb fr 0 then show_Z ip
          else show_Z ip ++ "." ++
               String.rev (strip_zeros (String.rev (pad (Pos.to_nat p) (show_Z (fr * 5 ^ Zpos p)))))
      | _ => show_Z (Zpos m * 2 ^ e)
      end
  end.

Fixpoint digits_value (s : string) (acc : option Z) : option Z :=
  match s with
  | String c rest =>
      let d := Z.of_nat (nat_of_ascii c) - 48 in
      if Z.leb 0 d && Z.leb d 9 then digits_value rest (Some (10 * default 0 acc + d))
      else acc
  | EmptyString => acc
  end.

(** Reads a leading run of decimal digits and is [NaN] without one; on
    unsigned integer numerals and on words it agrees with [parseFloat]
    and with [parseInt]. *)
Definition parseDigits (s : string) : Js.number :=
  match digits_value s None with
  | Some z => Js.ofZ z
  | None => S754_nan
  end.

(** A stand-in for ToNumber; the sample runs do not reach it. *)
Definition ToNumber (v : JSON) : Exn + Js.number := inr S754_nan.

(** A backend that answers the requests it receives with the given
    results in turn, and is unreachable once they are used up. *)
Definition scripted : Server (list (Exn + Response)) :=
  fun s _ =>
    match s with
    | r :: rest => (r, rest)
    | [] => (inl (TypeError "Failed to fetch"), [])
    end.


(** Converting 0.125 BTC of account 1 into account 2 of user 7, at 1 KZT
    per BTC. *)
Definition conversion : ConvertParams :=
  {| userId := Js.ofZ 7; fromAccountId := Js.ofZ 1; fromSymbol := BTC;
     amountCrypto := Js.num 1 (-3); toKZTAccountId := Js.ofZ 2;
     rateKZTPerCrypto := Js.ofZ 1 |}.

Definition receipt (n : Z) : JSON := JObject [("id", JNumber (Js.ofZ n))].

Definition Platform_OS : string := "web".

Definition user : UserData :=
  {| id := Js.ofZ 7; name := "Aigerim"; surname := "S"; email := "aigerim@example.kz" |}.

(** The account the backend creates for that user. *)
Definition new_account : JSON :=
  JObject [("id", JNumber (Js.ofZ 12)); ("user_id", JNumber (Js.ofZ 7));
           ("account_type", JString "checking"); ("balance", JString "0.00");
           ("currency", JString "KZT"); ("status", JString "active")].

Definition account : Account :=
  {| acc_id := Js.ofZ 12; acc_user_id := Js.ofZ 7; acc_account_type := "checking";
     acc_balance := "0.00"; acc_currency := "KZT"; acc_status := "active";
     acc_created_at := "2025-01-01T00:00:00"; acc_updated_at := "2025-01-01T00:00:00";
     acc_deleted_at := None |}.

(** The user has no account, one is created, and the transactions cannot
    be fetched. *)
Definition transactions_unavailable : list (Exn + Response) :=
  [replies (JArray []); replies new_account; refuses "Service unavailable"].

(** The user has no account, one is created, and there is no transaction yet. *)
Definition first_visit : list (Exn + Response) :=
  [replies (JArray []); replies new_account; replies (JArray [])].

(** The provider knows the price of bitcoin only. *)
Definition bitcoin_only : JSON :=
  JObject [("bitcoin", JObject [("kzt", JNumber (Js.ofZ 50000000))])].

(** A deposit of 0.13 KZT into account 2. *)
Definition small_deposit : TransactionDepositRequest :=
  {| dep_account_id := Js.ofZ 2;
     dep_amount := Js.Number (Js.FS_Decimal false 13 2);
     dep_currency := "KZT";
     dep_description := None |}.

(** The backend accepts both legs. *)
Definition both_accepted : list (Exn + Response) :=
  [replies (receipt 41); replies (receipt 42)].

(** The backend accepts the withdrawal and refuses the deposit. *)
Definition deposit_refused : list (Exn + Response) :=
  [replies (receipt 41); refuses "Account is not active"].

End Sample.

(** ** Further derived descriptions *)

(** What a backend call throws on a response that is not [ok]: the
    rejection of the body parse, a [TypeError] on a [null] body, the
    [detail] of the body when it is a string, the call's own fallback
    text otherwise. *)
Definition refusal (fallback : string) (response : Response) : Exn :=
  match json response with
  | inl e => e
  | inr JNull => TypeError "Cannot read properties of null (reading 'detail')"
  | inr (JObject fields) =>
      Error match assoc "detail" fields with
            | Some (JString detail) => detail
            | _ => fallback
            end
  | inr _ => Error fallback
  end.

Section Submission.

Variable backendURL : string.
Variable toString : Js.number -> string.

(** The request a submitted form sends for each kind of modal, with the
    fallback text of the call that sends it; none without a modal. *)
Definition submission (u : UserData) (a : Account) (modalType : option TransactionModalType)
    (amountNum toAccountIdNum : Js.number) (description : string)
  : option (Request * string) :=
  match modalType with
  | Some deposit_modal =>
      Some (deposit_request backendURL toString (id u)
              {| dep_account_id := acc_id a; dep_amount := amountNum;
                 dep_currency := CURRENCY;
                 dep_description := or_undefined description |},
            "Failed to create deposit")
  | Some withdrawal_modal =>
      Some (withdrawal_request backendURL toString (id u)
              {| wd_account_id := acc_id a; wd_amount := amountNum;
                 wd_currency := CURRENCY;
                 wd_description := or_undefined description |},
            "Failed to create withdrawal")
  | Some transfer_modal =>
      Some (transfer_request backendURL toString (id u)
              {| tr_from_account_id := acc_id a;
                 tr_to_account_id := toAccountIdNum;
                 tr_amount := amountNum;
                 tr_currency := CURRENCY;
                 tr_description := or_undefined description |},
            "Failed to create transfer")
  | None => None
  end.

End Submission.

(** The amount of a form passes its check. *)
Definition valid_amount (amountNum : Js.number) : bool :=
  negb (Js.isNaN amountNum || Js.leb amountNum (Js.ofZ 0)).

(** A transfer names a destination that passes its check; other kinds of
    submission have no destination to check. *)
Definition valid_destination (modalType : option TransactionModalType)
    (toAccountIdNum : Js.number) : bool :=
  match modalType with
  | Some transfer_modal => negb (Js.isNaN toAccountIdNum || Js.leb toAccountIdNum (Js.ofZ 0))
  | _ => true
  end.

(** What the screen shows: [alert] on the web, [Alert.alert] elsewhere. *)
Definition notice (os title web_msg msg : string) : Event :=
  Acted (if String.eqb os "web" then alert web_msg else Alert_alert title msg).

(** The events of [closeModal]. *)
Definition modal_closed : list Event :=
  [Acted (setModalType None); Acted (setAmount ""); Acted (setToAccountId "");
   Acted (setDescription "")].

(** The text [loadData] shows for an error. *)
Definition load_error_text (e : Exn) : string :=
  if String.eqb (message e) "" then "Failed to load data. Please try again." else message e.

(** ** More of the API client *)

Section Analysis.

Variable backendURL : string.
Variable toString : Js.number -> string.

(** [new URLSearchParams({user_id, months_back})] and the conditional
    [append]; a missing [monthsBack] takes the default 6. *)
Definition analysis_params (userId : Js.number) (monthsBack : option Js.number)
    (specificQuery : option string) : list (string * string) :=
  let params := [("user_id", toString userId);
                 ("months_back", toString (default (Js.ofZ 6) monthsBack))] in
  match specificQuery with
  | Some q => if String.eqb q "" then params else (params ++ [("specific_query", q)])%list
  | None => params
  end.

Definition analysis_request (userId : Js.number) (monthsBack : option Js.number)
    (specificQuery : option string) : Request :=
  {| method := POST;
     url := {| base := backendURL ++ "/api/predict/analyze";
               query := analysis_params userId monthsBack specificQuery |};
     headers := accept_headers;
     body := None |}.

Definition getFinancialAnalysis (userId : Js.number) (monthsBack : option Js.number)
    (specificQuery : option string) : Prog JSON :=
  response ← fetch (analysis_request userId monthsBack specificQuery);
  settle "Failed to fetch financial analysis" response.

End Analysis.

(** ToBoolean on a parsed value. *)
Definition truthy_value (v : JSON) : bool :=
  match v with
  | JNull => false
  | JBool b => b
  | JNumber x => Js.truthy x
  | JString s => negb (String.eqb s "")
  | JArray _ | JObject _ => true
  end.

Section ErrorMessages.

(** ToString on a number, a boolean, an array or an object, as [join]
    applies it to an element, and [JSON.stringify].  ToString throws a
    [TypeError] on an object or an array that cannot be made a primitive
    (an own [toString] that is not callable, for one); [JSON.stringify]
    of a parsed value always yields a string. *)
Variable ToString : JSON -> Exn + string.
Variable JSON_stringify : JSON -> string.

(** [e.msg || e.message] when one of them is truthy. *)
Definition chosen_value (e : JSON) : option JSON :=
  match opt_prop "msg" (Some e) with
  | Some v => if truthy_value v then Some v else
                match opt_prop "message" (Some e) with
                | Some v' => if truthy_value v' then Some v' else None
                | None => None
                end
  | None =>
      match opt_prop "message" (Some e) with
      | Some v' => if truthy_value v' then Some v' else None
      | None => None
      end
  end.

(** [e.msg || e.message || JSON.stringify(e)] for an entry that is not
    [null]. *)
Definition detail_value (e : JSON) : JSON :=
  match chosen_value e with
  | Some v => v
  | None => JString (JSON_stringify e)
  end.

(** The callback of [error.detail.map]; reading [msg] of a [null] entry
    throws. *)
Definition detail_choice (e : JSON) : Exn + JSON :=
  match prop "msg" e with
  | inl err => inl err
  | inr _ => inr (detail_value e)
  end.

(** [items.map(callback)]: the first entry on which the callback throws
    aborts the map. *)
Fixpoint detail_choices (items : list JSON) : Exn + list JSON :=
  match items with
  | [] => inr []
  | e :: rest =>
      match detail_choice e with
      | inl err => inl err
      | inr v =>
          match detail_choices rest with
          | inl err => inl err
          | inr vs => inr (v :: vs)
          end
      end
  end.

(** The text [join] makes of an element: empty for [null], the string
    itself, ToString of anything else. *)
Definition element_text (v : JSON) : Exn + string :=
  match v with
  | JNull => inr ""
  | JString s => inr s
  | _ => ToString v
  end.

(** The texts of the elements, in order; [join] runs after the whole map
    and stops at the first element it cannot convert. *)
Fixpoint element_texts (values : list JSON) : Exn + list string :=
  match values with
  | [] => inr []
  | v :: rest =>
      match element_text v with
      | inl err => inl err
      | inr t =>
          match element_texts rest with
          | inl err => inl err
          | inr ts => inr (t :: ts)
          end
      end
  end.

Definition newline : string := String (ascii_of_nat 10) EmptyString.

(** The default messages by status code. *)
Definition status_message (statusCode : Js.number) : string :=
  if SFeqb statusCode (Js.ofZ 400) then "Invalid request. Please check your input."
  else if SFeqb statusCode (Js.ofZ 401) then "Invalid email or password."
  else if SFeqb statusCode (Js.ofZ 403) then "Access denied."
  else if SFeqb statusCode (Js.ofZ 404) then "Resource not found."
  else if SFeqb statusCode (Js.ofZ 422) then "Validation error. Please check your input."
  else if SFeqb statusCode (Js.ofZ 500) then "Server error. Please try again later."
  else "An unexpected error occurred.".

(** [parseErrorMessage]; the value returned is a string except when
    [error.message] is returned, which is whatever the body holds. *)
Definition parseErrorMessage (error : JSON) (statusCode : Js.number) : Exn + JSON :=
  match prop "detail" error with
  | inl err => inl err
  | inr (Some (JString detail)) => inr (JString detail)
  | inr (Some (JArray items)) =>
      match detail_choices items with
      | inl err => inl err
      | inr values =>
          match element_texts values with
          | inl err => inl err
          | inr texts => inr (JString (String.concat newline texts))
          end
      end
  | inr _ =>
      match opt_prop "message" (Some error) with
      | Some m => if truthy_value m then inr m else inr (JString (status_message statusCode))
      | None => inr (JString (status_message statusCode))
      end
  end.

End ErrorMessages.

(** ** The crypto portfolio of the analysis screen *)

Definition Js_add (x y : Js.number) : Js.number := SFadd Js.prec Js.emax x y.

(** The key of a rates record a string names, if any. *)
Definition symbol_of_name (s : string) : option SupportedCrypto :=
  if String.eqb s "BTC" then Some BTC
  else if String.eqb s "ETH" then Some ETH
  else if String.eqb s "USDT" then Some USDT
  else None.

Record PortfolioItem : Type :=
  { item_account : Account;
    item_symbol : string;
    item_balance : Js.number;
    item_rate : option Js.number;
    item_kztValue : option Js.number }.

Section Portfolio.

(** [String.prototype.toUpperCase] and [Number] applied to a string. *)
Variable toUpperCase : string -> string.
Variable StringToNumber : string -> Js.number.

Definition is_crypto (a : Account) : bool :=
  String.eqb (toUpperCase (acc_account_type a)) "CRYPTO".

(** The callback of [cryptoAccounts.map]. *)
Definition portfolio_item (ratesKZT : option (gmap SupportedCrypto Js.number)) (a : Account)
  : PortfolioItem :=
  let symbol := toUpperCase (acc_currency a) in
  let balance := StringToNumber (acc_balance a) in
  let rate := ratesKZT ≫= (fun rates => symbol_of_name symbol ≫= (fun k => rates !! k)) in
  let kztValue := match rate with
                  | Some r => if Js.truthy r then Some (Js.mul balance r) else None
                  | None => None
                  end in
  {| item_account := a; item_symbol := symbol; item_balance := balance;
     item_rate := rate; item_kztValue := kztValue |}.

(** [getCryptoPortfolio], reading the [accounts] and [ratesKZT] state. *)
Definition getCryptoPortfolio (accounts : list Account)
    (ratesKZT : option (gmap SupportedCrypto Js.number)) : list PortfolioItem * Js.number :=
  let cryptoAccounts := List.filter is_crypto accounts in
  let items := map (portfolio_item ratesKZT) cryptoAccounts in
  let totalKZT :=
    fold_left (fun sum it => Js_add sum (default (Js.ofZ 0) (item_kztValue it)))
      items (Js.ofZ 0) in
  (items, totalKZT).

End Portfolio.

(** ** More sample data for concrete runs *)

Module Scenario.

(** A conversion whose amount is NaN. *)
Definition nan_conversion : ConvertParams :=
  {| userId := Js.ofZ 7; fromAccountId := Js.ofZ 1; fromSymbol := BTC;
     amountCrypto := S754_nan; toKZTAccountId := Js.ofZ 2;
     rateKZTPerCrypto := Js.ofZ 1 |}.

(** The body of a validation error. *)
Definition validation_entries : list JSON :=
  [JObject [("loc", JArray [JString "body"; JString "amount"]);
            ("msg", JString "Input should be greater than 0")];
   JObject [("loc", JArray [JString "body"; JString "currency"]);
            ("msg", JString "Field required")]].

Definition validation_error : JSON := JObject [("detail", JArray validation_entries)].

Definition unprocessable : Response := {| ok := false; json := inr validation_error |}.

(** Both rates. *)
Definition two_rates : JSON :=
  JObject [("bitcoin", JObject [("kzt", JNumber (Js.ofZ 50000000))]);
           ("ethereum", JObject [("kzt", JNumber (Js.ofZ 1500000))])].

(** Upper case of the letters a to z; on strings of ASCII characters it is
    [toUpperCase]. *)
Definition upper_ascii (c : ascii) : ascii :=
  let n := nat_of_ascii c in
  if (Nat.leb 97 n && Nat.leb n 122)%bool then ascii_of_nat (n - 32) else c.

Fixpoint toUpperCase (s : string) : string :=
  match s with
  | EmptyString => EmptyString
  | String c rest => String (upper_ascii c) (toUpperCase rest)
  end.

(** Sample stand-ins for ToString on a value that is not a string and
    for [JSON.stringify]; the sample runs do not reach them. *)
Definition ToString (v : JSON) : Exn + string := inr "[object Object]".
Definition JSON_stringify (v : JSON) : string := "{}".

(** A crypto account whose balance does not read as a number. *)
Definition broken_account : Account :=
  {| acc_id := Js.ofZ 13; acc_user_id := Js.ofZ 7; acc_account_type := "crypto";
     acc_balance := "n/a"; acc_currency := "btc"; acc_status := "active";
     acc_created_at := "2025-01-01T00:00:00"; acc_updated_at := "2025-01-01T00:00:00";
     acc_deleted_at := None |}.

Definition btc_rate : gmap SupportedCrypto Js.number := {[ BTC := Js.ofZ 50000000 ]}.
Definition btc_free : gmap SupportedCrypto Js.number := {[ BTC := S754_zero false ]}.

(** The backend accepts a deposit, then lists one account and no
    transaction for the reload. *)
Definition deposit_then_reload : list (Exn + Response) :=
  [replies (Sample.receipt 43); replies (JArray [Sample.new_account]); replies (JArray [])].

End Scenario.
(** ** How programs run *)

Lemma run_bind {A B S : Type} (srv : Server S) (p : Prog A) (f : A -> Prog B) (s : S) :
  run srv (p ≫= f) s =
  match run srv p s with
  | (Returned a, t, s1) => let '(o, t', s2) := run srv (f a) s1 in (o, (t ++ t')%list, s2)
  | (Threw e, t, s1) => (Threw e, t, s1)
  end.
Proof.
  unfold mbind, Prog_bind. revert s.
  induction p as [a | e | rq k IH | u k IH]; intros s; simpl.
  - destruct (run srv (f a) s) as [[o t] s2]. reflexivity.
  - reflexivity.
  - destruct (srv s rq) as [r s1]. rewrite IH.
    destruct (run srv (k r) s1) as [[[a | e] t] s2]; [| reflexivity].
    destruct (run srv (f a) s2) as [[o t'] s3]. reflexivity.
  - rewrite IH.
    destruct (run srv k s) as [[[a | e] t] s1]; [| reflexivity].
    destruct (run srv (f a) s1) as [[o t'] s2]. reflexivity.
Qed.

Lemma run_fetch {S : Type} (srv : Server S) (rq : Request) (s : S) :
  run srv (fetch rq) s =
  (match (srv s rq).1 with inl e => Threw e | inr res => Returned res end,
   [Fetched rq (srv s rq).1], (srv s rq).2).
Proof.
  unfold fetch. simpl. destruct (srv s rq) as [[e | res] s1]; reflexivity.
Qed.

Lemma run_await {A S : Type} (srv : Server S) (r : Exn + A) (s : S) :
  run srv (await r) s = (match r with inl e => Threw e | inr a => Returned a end, [], s).
Proof. destruct r; reflexivity. Qed.

Lemma run_settle {S : Type} (srv : Server S) (fallback : string) (response : Response) (s : S) :
  run srv (settle fallback response) s = (settled fallback response, [], s).
Proof.
  unfold settle, settled.
  destruct response as [[|] [e | j]]; simpl; try reflexivity.
  destruct j as [| b | x | str | items | fields]; simpl; try reflexivity.
  destruct (assoc "detail" fields) as [[| b | x | str | items | fields'] |]; reflexivity.
Qed.

Lemma run_call {S : Type} (srv : Server S) (rq : Request) (fallback : string) (s : S) :
  run srv (fetch rq ≫= settle fallback) s =
  (answered fallback (srv s rq).1, [Fetched rq (srv s rq).1], (srv s rq).2).
Proof.
  rewrite run_bind, run_fetch.
  destruct (srv s rq) as [[e | response] s1]; simpl; [reflexivity |].
  rewrite run_settle. reflexivity.
Qed.

Lemma answered_succeeded (fallback : string) (r : Exn + Response) :
  succeeded r = true ->
  exists response j, r = inr response /\ json response = inr j /\
                     answered fallback r = Returned j.
Proof.
  destruct r as [e | [[|] [e | j]]]; simpl; try discriminate.
  intros _. eexists _, j. repeat split.
Qed.

Lemma answered_failed (fallback : string) (r : Exn + Response) :
  succeeded r = false -> exists e, answered fallback r = Threw e.
Proof.
  destruct r as [e | [[|] [e | j]]]; simpl; try discriminate; intros _;
    unfold settled; simpl; eauto.
  destruct (prop "detail" j) as [e | [[| b | x | str | items | fields] |]]; eauto.
Qed.

Lemma answered_returned (fallback : string) (r : Exn + Response) (j : JSON) :
  answered fallback r = Returned j ->
  succeeded r = true /\ exists response, r = inr response /\ json response = inr j.
Proof.
  destruct r as [e | [[|] [e | j']]]; simpl; unfold settled; simpl; try discriminate.
  - intros [= ->]. split; [reflexivity | eauto].
  - destruct (prop "detail" j') as [e | [[| b | x | str | items | fields] |]]; discriminate.
Qed.

(** ** Numbers *)

(** [toFixed] rounds to the nearest multiple of [10^-f], upwards on a tie:
    its integer [n] satisfies [n <= 10^f * x + 1/2 < n + 1]. *)
Lemma scaled_round_nearest (f : Z) (m : positive) (e : Z) :
  0 <= f ->
  let n := Js.scaled_round f m e in
  let x := Js.value (S754_finite false m e) in
  (inject_Z n <= inject_Z (10 ^ f) * x + (1 # 2))%Q /\
  (inject_Z (10 ^ f) * x + (1 # 2) < inject_Z n + 1)%Q.
Proof.
  intros Hf n x. subst n x. unfold Js.scaled_round, Js.value.
  assert (Hten : 0 < 10 ^ f) by (apply Z.pow_pos_nonneg; lia).
  destruct e as [| q | q].
  - unfold Qle, Qlt, inject_Z; simpl. rewrite Z.pow_0_r. lia.
  - unfold Qle, Qlt, inject_Z. cbn [Qnum Qden Qplus Qmult].
    set (k := Z.pos m * 2 ^ Z.pos q). set (t := 10 ^ f) in *.
    replace (t * Z.pos m * 2 ^ Z.pos q) with (t * k) by (subst k; ring).
    lia.
  - unfold Qle, Qlt, inject_Z. cbn [Qnum Qden Qplus Qmult].
    rewrite !Pos2Z.inj_mul, Pos2Z.inj_pow.
    set (P := 2 ^ Z.pos q). set (t := 10 ^ f) in *.
    assert (HP : 0 < P) by (subst P; apply Z.pow_pos_nonneg; lia).
    pose proof (Z.mul_div_le (2 * t * Z.pos m + P) (2 * P) ltac:(lia)) as H1.
    pose proof (Z.mul_succ_div_gt (2 * t * Z.pos m + P) (2 * P) ltac:(lia)) as H2.
    set (n := (2 * t * Z.pos m + P) `div` (2 * P)) in *.
    split; nia.
Qed.

(** [toFixed] and rounding half-even differ on exact ties only, where
    [toFixed] takes the larger integer. *)
Lemma scaled_round_half_even (f : Z) (m : positive) (e : Z) :
  Js.scaled_round f m e = spec_half_even f m e \/
  (Js.scaled_round f m e = spec_half_even f m e + 1 /\
   exists p, e = Zneg p /\ 2 * ((10 ^ f * Zpos m) mod 2 ^ Zpos p) = 2 ^ Zpos p).
Proof.
  unfold Js.scaled_round, spec_half_even.
  destruct e as [| p | p]; [left; reflexivity | left; reflexivity |].
  set (N := 10 ^ f * Z.pos m). set (P := 2 ^ Z.pos p).
  assert (HP : 0 < P) by (subst P; apply Z.pow_pos_nonneg; lia).
  pose proof (Z.div_mod N P ltac:(lia)) as Hdm.
  pose proof (Z.mod_pos_bound N P HP) as Hr.
  set (q := N / P) in *. set (r := N mod P) in *.
  replace (2 * 10 ^ f * Z.pos m + P) with (2 * N + P) by (subst N; ring).
  destruct (Z.compare_spec (2 * r) P) as [Heq | Hlt | Hgt].
  - assert (Hs : (2 * N + P) / (2 * P) = q + 1).
    { symmetry. apply (Z.div_unique _ _ _ 0); lia. }
    rewrite Hs. destruct (Z.even q); [right | left; reflexivity].
    split; [reflexivity |]. exists p. split; [reflexivity | exact Heq].
  - left. symmetry. apply (Z.div_unique _ _ _ (2 * r + P)); lia.
  - left. symmetry. apply (Z.div_unique _ _ _ (2 * r - P)); lia.
Qed.

(** Known values: [(1.005).toFixed(2)] is ["1.00"], [(0.125).toFixed(2)]
    is ["0.13"], [(2.5).toFixed(0)] is ["3"], [(-0.125).toFixed(2)] is
    ["-0.13"] and [0.1 * 3] is [0.30000000000000004]. *)
Example toFixed_1_005 :
  Js.toFixed (Js.Number (Js.FS_Decimal false 1005 3)) 2 = Js.FS_Decimal false 100 2.
Proof. reflexivity. Qed.

Example toFixed_0_125 : Js.toFixed (Js.num 1 (-3)) 2 = Js.FS_Decimal false 13 2.
Proof. reflexivity. Qed.

Example toFixed_2_5 : Js.toFixed (Js.num 5 (-1)) 0 = Js.FS_Decimal false 3 0.
Proof. reflexivity. Qed.

Example toFixed_minus_0_125 :
  Js.toFixed (SFopp (Js.num 1 (-3))) 2 = Js.FS_Decimal true 13 2.
Proof. reflexivity. Qed.

Example mul_0_1_by_3 :
  Js.mul (Js.Number (Js.FS_Decimal false 1 1)) (Js.ofZ 3)
  = Js.Number (Js.FS_Decimal false 30000000000000004 17).
Proof. reflexivity. Qed.

Example Number_0_13_is_binary64 :
  Js.Number (Js.FS_Decimal false 13 2) = S754_finite false 4683743612465316 (-55) /\
  Js.is_valid (Js.Number (Js.FS_Decimal false 13 2)) = true.
Proof. split; reflexivity. Qed.

Lemma json_number_not_string (x : Js.number) (s : string) : json_number x <> JString s.
Proof. destruct x; discriminate. Qed.

Lemma append_inj_l (a b c : string) : a ++ b = a ++ c -> b = c.
Proof. induction a as [| ch a IH]; simpl; [tauto |]. intros [= H]. auto. Qed.

(** Splitting a short trace around one of its events. *)
Ltac split_trace H :=
  match type of H with
  | _ = (?pre ++ _ :: _)%list =>
      destruct pre as [| ? [| ? [| ? ?]]]; simpl in H; inversion H; subst; clear H
  end.

(** ** The conversion, run against any backend *)

Section Conversion.

Variable backendURL : string.
Variable toString : Js.number -> string.

Local Abbreviation convert := (convertCryptoToKZT backendURL toString).
Local Abbreviation W := (withdrawal_leg backendURL toString).
Local Abbreviation D := (deposit_leg backendURL toString).

(** Every run of a conversion has one of four shapes. *)
Lemma convert_run {S : Type} (srv : Server S) (p : ConvertParams) (s : S) :
  run srv (convert p) s =
  if Js.leb (amountCrypto p) (Js.ofZ 0) then
    (Threw (Error "Amount must be positive"), [], s)
  else
    let '(r1, s1) := srv s (W p) in
    match answered "Failed to create withdrawal" r1 with
    | Threw e => (Threw e, [Fetched (W p) r1], s1)
    | Returned w =>
        let '(r2, s2) := srv s1 (D p) in
        match answered "Failed to create deposit" r2 with
        | Threw e => (Threw e, [Fetched (W p) r1; Fetched (D p) r2], s2)
        | Returned d =>
            (Returned {| withdrawal := w; deposit := d;
                         kztAmount := Js.mul (amountCrypto p) (rateKZTPerCrypto p) |},
             [Fetched (W p) r1; Fetched (D p) r2], s2)
        end
    end.
Proof.
  unfold convertCryptoToKZT.
  destruct (Js.leb (amountCrypto p) (Js.ofZ 0)); [reflexivity |].
  unfold createWithdrawal, createDeposit.
  rewrite run_bind, run_call. fold (W p).
  destruct (srv s (W p)) as [r1 s1]; cbn [fst snd].
  destruct (answered "Failed to create withdrawal" r1) as [w | e]; [| reflexivity].
  rewrite run_bind, run_call. fold (D p).
  destruct (srv s1 (D p)) as [r2 s2]; cbn [fst snd].
  destruct (answered "Failed to create deposit" r2) as [d | e]; reflexivity.
Qed.

(** C1 (as the code has it).  When the withdrawal leg of a conversion has
    succeeded and the deposit leg fails, the run stops there: no further
    request is issued, so no compensating reversal, and the conversion
    throws the error of the failed deposit call. *)
Theorem convert_failed_deposit_ends_run {S : Type} (srv : Server S) (p : ConvertParams) (s : S)
    (rq1 rq2 : Request) (r1 r2 : Exn + Response) (rest : list Event) :
  trace (run srv (convert p) s) = Fetched rq1 r1 :: Fetched rq2 r2 :: rest ->
  succeeded r2 = false ->
  rq1 = W p /\ succeeded r1 = true /\ rq2 = D p /\ rest = [] /\
  exists e, answered "Failed to create deposit" r2 = Threw e /\
            outcome (run srv (convert p) s) = Threw e.
Proof.
  rewrite convert_run.
  destruct (Js.leb (amountCrypto p) (Js.ofZ 0)); [discriminate |].
  destruct (srv s (W p)) as [r1' s1].
  destruct (answered "Failed to create withdrawal" r1') as [w | e] eqn:Hw; [| discriminate].
  apply answered_returned in Hw as [Hw _].
  destruct (srv s1 (D p)) as [r2' s2].
  destruct (answered "Failed to create deposit" r2') as [d | e] eqn:Hd;
    unfold trace, outcome; cbn [fst snd]; intros [= <- <- <- <- <-] Hfail.
  - apply answered_returned in Hd as [Hd _]. congruence.
  - repeat split; eauto.
Qed.

(** C6.  In the trace of a conversion a deposit request comes only
    directly after the withdrawal request, and only when that request
    succeeded; the withdrawal request is always the first event. *)
Theorem convert_debit_before_credit {S : Type} (srv : Server S) (p : ConvertParams) (s : S)
    (pre post : list Event) (rq : Request) (r : Exn + Response) :
  trace (run srv (convert p) s) = (pre ++ Fetched rq r :: post)%list ->
  (is_deposit backendURL rq ->
   exists r1, pre = [Fetched (W p) r1] /\ is_withdrawal backendURL (W p) /\
              succeeded r1 = true) /\
  (is_withdrawal backendURL rq -> pre = [] /\ rq = W p).
Proof.
  assert (Hne : ~ is_deposit backendURL (W p)).
  { unfold is_deposit; simpl. intros H. apply append_inj_l in H. discriminate. }
  assert (Hne' : ~ is_withdrawal backendURL (D p)).
  { unfold is_withdrawal; simpl. intros H. apply append_inj_l in H. discriminate. }
  rewrite convert_run.
  destruct (Js.leb (amountCrypto p) (Js.ofZ 0)).
  { unfold trace; cbn [fst snd]. intros H. destruct pre; discriminate. }
  destruct (srv s (W p)) as [r1 s1].
  destruct (answered "Failed to create withdrawal" r1) as [w | e] eqn:Hw.
  - apply answered_returned in Hw as [Hw _].
    destruct (srv s1 (D p)) as [r2 s2].
    assert (Ht : forall o : Outcome ConvertResult,
               trace (o, [Fetched (W p) r1; Fetched (D p) r2], s2)
               = (pre ++ Fetched rq r :: post)%list ->
               (is_deposit backendURL rq ->
                exists r1', pre = [Fetched (W p) r1'] /\ is_withdrawal backendURL (W p) /\
                            succeeded r1' = true) /\
               (is_withdrawal backendURL rq -> pre = [] /\ rq = W p)).
    { intros o H. unfold trace in H; cbn [fst snd] in H. split_trace H.
      - split; [intros Hd; contradiction | auto].
      - split; [| intros Hx; contradiction].
        intros _. exists r1. repeat split; auto. }
    destruct (answered "Failed to create deposit" r2); apply Ht.
  - unfold trace; cbn [fst snd]. intros H.
    destruct pre as [| ? [| ? ?]]; simpl in H; inversion H; subst.
    split; [intros Hd; contradiction | auto].
Qed.

Lemma answered_threw (fallback : string) (r : Exn + Response) (e : Exn) :
  answered fallback r = Threw e -> succeeded r = false.
Proof.
  intros H. destruct (succeeded r) eqn:Hs; [| reflexivity].
  apply (answered_succeeded fallback) in Hs as (? & ? & _ & _ & Hs). congruence.
Qed.

(** The trace of a conversion is empty, or the withdrawal request alone
    when it failed, or the withdrawal request that succeeded followed by
    the deposit request. *)
Lemma convert_trace_shape {S : Type} (srv : Server S) (p : ConvertParams) (s : S) :
  let t := trace (run srv (convert p) s) in
  t = [] \/
  (exists r1, t = [Fetched (W p) r1] /\ succeeded r1 = false) \/
  (exists r1 r2, t = [Fetched (W p) r1; Fetched (D p) r2] /\ succeeded r1 = true).
Proof.
  cbv zeta. rewrite convert_run.
  destruct (Js.leb (amountCrypto p) (Js.ofZ 0)); [left; reflexivity |].
  destruct (srv s (W p)) as [r1 s1].
  destruct (answered "Failed to create withdrawal" r1) as [w | e] eqn:Hw.
  - apply answered_returned in Hw as [Hw _].
    destruct (srv s1 (D p)) as [r2 s2].
    destruct (answered "Failed to create deposit" r2); right; right; exists r1, r2; auto.
  - apply answered_threw in Hw. right; left; exists r1; auto.
Qed.

Lemma convert_deposit_is_leg {S : Type} (srv : Server S) (p : ConvertParams) (s : S)
    (pre post : list Event) (rq : Request) (r : Exn + Response) :
  trace (run srv (convert p) s) = (pre ++ Fetched rq r :: post)%list ->
  is_deposit backendURL rq -> rq = D p.
Proof.
  intros H Hd.
  assert (Hne : ~ is_deposit backendURL (W p)).
  { unfold is_deposit; simpl. intros H'. apply append_inj_l in H'. discriminate. }
  destruct (convert_trace_shape srv p s) as [Ht | [(r1 & Ht & _) | (r1 & r2 & Ht & _)]];
    cbv zeta in Ht; rewrite Ht in H.
  - destruct pre; discriminate.
  - destruct pre as [| ? [| ? ?]]; simpl in H; inversion H; subst. contradiction.
  - split_trace H; [contradiction | reflexivity].
Qed.

(** C2 (as the code has it).  When the product of amount and rate is a
    positive finite number [x] below 10^21, the amount of the deposit
    request is the number written with two decimals [n / 100], where [n]
    is [100 * x] rounded to the nearest integer and upwards on a tie:
    [n <= 100 * x + 1/2 < n + 1].  It is the half-even rounding except
    on an exact tie, where it is the larger of the two integers. *)
Theorem convert_deposit_amount_rounds_half_up {S : Type} (srv : Server S) (p : ConvertParams)
    (s : S) (m : positive) (e : Z)
    (pre post : list Event) (rq : Request) (r : Exn + Response) :
  Js.mul (amountCrypto p) (rateKZTPerCrypto p) = S754_finite false m e ->
  Js.ltb (S754_finite false m e) Js.ten21 = true ->
  trace (run srv (convert p) s) = (pre ++ Fetched rq r :: post)%list ->
  is_deposit backendURL rq ->
  let n := Js.scaled_round 2 m e in
  let x := Js.value (S754_finite false m e) in
  body_field "amount" rq = Some (json_number (Js.Number (Js.FS_Decimal false n 2))) /\
  (inject_Z n <= inject_Z 100 * x + (1 # 2))%Q /\
  (inject_Z 100 * x + (1 # 2) < inject_Z n + 1)%Q /\
  (n = spec_half_even 2 m e \/
   (n = spec_half_even 2 m e + 1 /\
    exists q, e = Zneg q /\ 2 * ((10 ^ 2 * Zpos m) mod 2 ^ Zpos q) = 2 ^ Zpos q)).
Proof.
  intros Hmul Hlt Ht Hd n x.
  apply (convert_deposit_is_leg srv p s pre post rq r Ht) in Hd. subst rq.
  split; [| split; [| split]].
  - unfold body_field, deposit_leg, deposit_request, conversion_deposit. cbn.
    rewrite Hmul. unfold Js.toFixed. cbn [SFabs]. rewrite Hlt. reflexivity.
  - apply (scaled_round_nearest 2 m e). lia.
  - apply (scaled_round_nearest 2 m e). lia.
  - apply scaled_round_half_even.
Qed.

(** C3 (as the code has it).  A conversion that returns has issued
    exactly two requests, the withdrawal then the deposit, both for the
    same user, and returns the two documents the backend answered with.
    Neither request carries a linking identifier: each body has the
    fields account_id, amount, currency and description and no other. *)
Theorem convert_success_two_unlinked_legs {S : Type} (srv : Server S) (p : ConvertParams)
    (s : S) (res : ConvertResult) :
  outcome (run srv (convert p) s) = Returned res ->
  exists response1 response2 fields1 fields2,
    trace (run srv (convert p) s)
    = [Fetched (W p) (inr response1); Fetched (D p) (inr response2)] /\
    json response1 = inr (withdrawal res) /\
    json response2 = inr (deposit res) /\
    is_withdrawal backendURL (W p) /\ is_deposit backendURL (D p) /\
    query (url (W p)) = [("user_id", toString (userId p))] /\
    query (url (D p)) = [("user_id", toString (userId p))] /\
    body (W p) = Some (JObject fields1) /\ body (D p) = Some (JObject fields2) /\
    keys fields1 = ["account_id"; "amount"; "currency"; "description"] /\
    keys fields2 = ["account_id"; "amount"; "currency"; "description"].
Proof.
  rewrite convert_run.
  destruct (Js.leb (amountCrypto p) (Js.ofZ 0)); [discriminate |].
  destruct (srv s (W p)) as [r1 s1].
  destruct (answered "Failed to create withdrawal" r1) as [w | e] eqn:Hw; [| discriminate].
  apply answered_returned in Hw as (_ & response1 & -> & Hj1).
  destruct (srv s1 (D p)) as [r2 s2].
  destruct (answered "Failed to create deposit" r2) as [d | e] eqn:Hd; [| discriminate].
  apply answered_returned in Hd as (_ & response2 & -> & Hj2).
  unfold outcome, trace; cbn [fst snd]. intros [= <-].
  exists response1, response2. eexists _, _.
  repeat split; try reflexivity; assumption.
Qed.

(** C9.  A conversion that returns reports as [kztAmount] the product of
    amount and rate as computed, while its deposit request carries that
    product passed through [toFixed(2)]; there are conversions for which
    the two differ. *)
Theorem convert_reports_unrounded_amount :
  (forall (S : Type) (srv : Server S) (p : ConvertParams) (s : S) (res : ConvertResult),
      outcome (run srv (convert p) s) = Returned res ->
      kztAmount res = Js.mul (amountCrypto p) (rateKZTPerCrypto p) /\
      In (D p) (requests (trace (run srv (convert p) s))) /\
      body_field "amount" (D p)
      = Some (json_number (Js.Number (Js.toFixed (Js.mul (amountCrypto p) (rateKZTPerCrypto p)) 2))))
  /\
  (exists (p : ConvertParams) (s : list (Exn + Response)) (res : ConvertResult),
      outcome (run Sample.scripted (convert p) s) = Returned res /\
      body_field "amount" (D p) <> Some (json_number (kztAmount res))).
Proof.
  split.
  - intros S srv p s res. rewrite convert_run.
    destruct (Js.leb (amountCrypto p) (Js.ofZ 0)); [discriminate |].
    destruct (srv s (W p)) as [r1 s1].
    destruct (answered "Failed to create withdrawal" r1) as [w | e]; [| discriminate].
    destruct (srv s1 (D p)) as [r2 s2].
    destruct (answered "Failed to create deposit" r2) as [d | e]; [| discriminate].
    unfold outcome, trace; cbn [fst snd]. intros [= <-].
    repeat split; [right; left; reflexivity].
  - exists {| userId := Js.ofZ 7; fromAccountId := Js.ofZ 1; fromSymbol := BTC;
              amountCrypto := Js.num 1 (-3); toKZTAccountId := Js.ofZ 2;
              rateKZTPerCrypto := Js.ofZ 1 |},
           [replies (JObject [("id", JNumber (Js.ofZ 41))]);
            replies (JObject [("id", JNumber (Js.ofZ 42))])].
    eexists. split; [reflexivity |].
    vm_compute. discriminate.
Qed.

End Conversion.

(** ** Concrete conversions *)

Section SampleConversion.

Local Abbreviation convert := (convertCryptoToKZT Sample.backendURL Sample.toString).
Local Abbreviation W := (withdrawal_leg Sample.backendURL Sample.toString Sample.conversion).
Local Abbreviation D := (deposit_leg Sample.backendURL Sample.toString Sample.conversion).

Lemma sample_withdrawal_body :
  body W = Some (JObject [("account_id", JNumber (Js.ofZ 1));
                          ("amount", JNumber (Js.num 1 (-3)));
                          ("currency", JString "BTC");
                          ("description", JString "Convert 0.125 BTC to KZT")]).
Proof. vm_compute. reflexivity. Qed.

Lemma sample_deposit_body :
  body D = Some (JObject [("account_id", JNumber (Js.ofZ 2));
                          ("amount", JNumber (Js.Number (Js.FS_Decimal false 13 2)));
                          ("currency", JString "KZT");
                          ("description", JString "Converted from 0.125 BTC")]).
Proof. vm_compute. reflexivity. Qed.

Lemma sample_run_refused :
  run Sample.scripted (convert Sample.conversion) Sample.deposit_refused
  = (Threw (Error "Account is not active"),
     [Fetched W (replies (Sample.receipt 41));
      Fetched D (refuses "Account is not active")], []).
Proof. vm_compute. reflexivity. Qed.

Lemma sample_run_accepted :
  run Sample.scripted (convert Sample.conversion) Sample.both_accepted
  = (Returned {| withdrawal := Sample.receipt 41; deposit := Sample.receipt 42;
                 kztAmount := Js.num 1 (-3) |},
     [Fetched W (replies (Sample.receipt 41));
      Fetched D (replies (Sample.receipt 42))], []).
Proof. vm_compute. reflexivity. Qed.

(** C1 fails as stated: the withdrawal of this conversion succeeds, its
    deposit is refused, and the conversion throws having issued no
    deposit back into the source account. *)
Lemma convert_leaves_debit_standing :
  let r := run Sample.scripted (convert Sample.conversion) Sample.deposit_refused in
  (exists r1 r2, trace r = [Fetched W r1; Fetched D r2] /\
                 succeeded r1 = true /\ succeeded r2 = false) /\
  outcome r = Threw (Error "Account is not active") /\
  ~ (exists rq, In rq (requests (trace r)) /\
                is_reversal Sample.backendURL Sample.conversion rq).
Proof.
  cbv zeta. rewrite sample_run_refused. unfold trace, outcome; cbn [fst snd].
  split; [| split].
  - eexists _, _. repeat split.
  - reflexivity.
  - intros (rq & Hin & Hdep & Hacc & _). cbn [requests omap] in Hin.
    destruct Hin as [<- | [<- | []]].
    + unfold is_deposit in Hdep. vm_compute in Hdep. discriminate.
    + unfold body_field in Hacc. rewrite sample_deposit_body in Hacc.
      vm_compute in Hacc. discriminate.
Qed.

Lemma convert_failed_deposit_ends_run_witness :
  let r := run Sample.scripted (convert Sample.conversion) Sample.deposit_refused in
  trace r = [Fetched W (replies (Sample.receipt 41));
             Fetched D (refuses "Account is not active")] /\
  succeeded (refuses "Account is not active") = false /\
  outcome r = Threw (Error "Account is not active").
Proof.
  cbv zeta.
  assert (Ht : trace (run Sample.scripted (convert Sample.conversion) Sample.deposit_refused)
               = [Fetched W (replies (Sample.receipt 41));
                  Fetched D (refuses "Account is not active")])
    by (vm_compute; reflexivity).
  destruct (convert_failed_deposit_ends_run Sample.backendURL Sample.toString
              Sample.scripted Sample.conversion Sample.deposit_refused
              _ _ _ _ _ Ht eq_refl) as (_ & _ & _ & _ & e & He & Ho).
  split; [exact Ht |]. split; [reflexivity |].
  rewrite Ho. vm_compute in He. injection He as <-. reflexivity.
Defined.

(** C2 fails as stated: for 0.125 BTC at 1 KZT the product 0.125 lies
    halfway between 0.12 and 0.13; the deposit request carries 0.13,
    where rounding half-even gives 0.12. *)
Lemma convert_rounds_tie_upwards :
  let p := Sample.conversion in
  let x := Js.mul (amountCrypto p) (rateKZTPerCrypto p) in
  Js.ltb (Js.ofZ 0) (amountCrypto p) = true /\
  Js.ltb (Js.ofZ 0) (rateKZTPerCrypto p) = true /\
  In D (requests (trace (run Sample.scripted (convert p) Sample.both_accepted))) /\
  body_field "amount" D = Some (JNumber (Js.Number (Js.FS_Decimal false 13 2))) /\
  spec_fiat_amount x = Js.Number (Js.FS_Decimal false 12 2) /\
  body_field "amount" D <> Some (json_number (spec_fiat_amount x)).
Proof.
  cbv zeta. rewrite sample_run_accepted. unfold body_field. rewrite sample_deposit_body.
  repeat split.
  - right; left; reflexivity.
  - vm_compute. discriminate.
Qed.

Lemma convert_deposit_amount_rounds_half_up_witness :
  let p := Sample.conversion in
  Js.mul (amountCrypto p) (rateKZTPerCrypto p) = S754_finite false (2 ^ 52) (-55) /\
  Js.scaled_round 2 (2 ^ 52) (-55) = 13 /\
  body_field "amount" D = Some (json_number (Js.Number (Js.FS_Decimal false 13 2))) /\
  (inject_Z 13 <= inject_Z 100 * Js.value (S754_finite false (2 ^ 52) (-55)) + (1 # 2))%Q.
Proof.
  cbv zeta.
  assert (Ht : trace (run Sample.scripted (convert Sample.conversion) Sample.both_accepted)
               = ([Fetched W (replies (Sample.receipt 41))]
                  ++ Fetched D (replies (Sample.receipt 42)) :: [])%list)
    by (rewrite sample_run_accepted; reflexivity).
  destruct (convert_deposit_amount_rounds_half_up Sample.backendURL Sample.toString
              Sample.scripted Sample.conversion Sample.both_accepted (2 ^ 52) (-55)
              _ _ _ _ eq_refl eq_refl Ht eq_refl) as (Hamount & Hle & _).
  split; [reflexivity |]. split; [reflexivity |]. split; [exact Hamount | exact Hle].
Defined.

(** C3 fails as stated: this conversion succeeds, and no field of its
    withdrawal request has the same value in its deposit request. *)
Lemma convert_legs_share_no_field :
  let r := run Sample.scripted (convert Sample.conversion) Sample.both_accepted in
  (exists res, outcome r = Returned res /\
               requests (trace r) = [W; D]) /\
  ~ (exists k v, body_field k W = Some v /\ body_field k D = Some v).
Proof.
  cbv zeta. rewrite sample_run_accepted. split.
  - eexists. split; reflexivity.
  - intros (k & v & Hw & Hd). unfold body_field in Hw, Hd.
    rewrite sample_withdrawal_body in Hw. rewrite sample_deposit_body in Hd.
    cbn [opt_prop assoc] in Hw, Hd.
    repeat match type of Hw with
           | (if String.eqb k ?c then _ else _) = _ =>
               destruct (String.eqb k c);
               [rewrite <- Hd in Hw; vm_compute in Hw; discriminate |]
           end.
    discriminate.
Qed.

Lemma convert_success_two_unlinked_legs_witness :
  let r := run Sample.scripted (convert Sample.conversion) Sample.both_accepted in
  (exists res, outcome r = Returned res) /\ length (trace r) = 2%nat.
Proof.
  cbv zeta.
  destruct (convert_success_two_unlinked_legs Sample.backendURL Sample.toString
              Sample.scripted Sample.conversion Sample.both_accepted _
              (f_equal outcome sample_run_accepted))
    as (r1 & r2 & f1 & f2 & Ht & _).
  split; [eexists; exact (f_equal outcome sample_run_accepted) |].
  rewrite Ht. reflexivity.
Defined.

Lemma convert_debit_before_credit_witness :
  let r := run Sample.scripted (convert Sample.conversion) Sample.both_accepted in
  trace r = ([Fetched W (replies (Sample.receipt 41))]
             ++ Fetched D (replies (Sample.receipt 42)) :: [])%list /\
  is_deposit Sample.backendURL D /\
  exists r1, [Fetched W (replies (Sample.receipt 41))] = [Fetched W r1] /\
             succeeded r1 = true.
Proof.
  cbv zeta.
  assert (Ht : trace (run Sample.scripted (convert Sample.conversion) Sample.both_accepted)
               = ([Fetched W (replies (Sample.receipt 41))]
                  ++ Fetched D (replies (Sample.receipt 42)) :: [])%list)
    by (rewrite sample_run_accepted; reflexivity).
  destruct (convert_debit_before_credit Sample.backendURL Sample.toString
              Sample.scripted Sample.conversion Sample.both_accepted _ _ _ _ Ht)
    as [Hdep _].
  destruct (Hdep eq_refl) as (r1 & Hpre & _ & Hok).
  split; [exact Ht |]. split; [reflexivity |]. exists r1. split; assumption.
Defined.

Lemma convert_reports_unrounded_amount_witness :
  outcome (run Sample.scripted (convert Sample.conversion) Sample.both_accepted)
  = Returned {| withdrawal := Sample.receipt 41; deposit := Sample.receipt 42;
                kztAmount := Js.num 1 (-3) |} /\
  Js.num 1 (-3) = Js.mul (amountCrypto Sample.conversion) (rateKZTPerCrypto Sample.conversion) /\
  In D (requests (trace (run Sample.scripted (convert Sample.conversion) Sample.both_accepted))).
Proof.
  destruct (convert_reports_unrounded_amount Sample.backendURL Sample.toString) as [Hall _].
  destruct (Hall _ Sample.scripted Sample.conversion Sample.both_accepted _
              (f_equal outcome sample_run_accepted)) as (Hk & Hin & _).
  split; [exact (f_equal outcome sample_run_accepted) |].
  split; [exact Hk | exact Hin].
Defined.

End SampleConversion.

(** ** The batch rate operation *)

Lemma collect_rates_throws (data : JSON) (symbols : list SupportedCrypto)
    (result : gmap SupportedCrypto Js.number) (sym : SupportedCrypto) :
  List.find (unavailable data) symbols = Some sym ->
  collect_rates data symbols result
  = inl (Error ("Rate for " ++ symbol_name sym ++ " not available")).
Proof.
  revert result. induction symbols as [| sym' rest IH]; intros result; [discriminate |].
  cbn [List.find collect_rates]. unfold unavailable, price_of.
  destruct (opt_prop "kzt" (opt_prop (idMap sym') (Some data)))
    as [[| b | x | str | items | fields] |]; try (intros [= ->]; reflexivity).
  apply IH.
Qed.

Lemma collect_rates_returns (data : JSON) (symbols : list SupportedCrypto)
    (result : gmap SupportedCrypto Js.number) :
  List.find (unavailable data) symbols = None ->
  exists rates, collect_rates data symbols result = inr rates /\
    forall sym, rates !! sym
                = if decide (sym ∈ symbols) then price_of data sym else result !! sym.
Proof.
  revert result. induction symbols as [| sym' rest IH]; intros result.
  - intros _. exists result. split; [reflexivity |]. intros sym.
    destruct (decide (sym ∈ [])) as [Hin | _]; [| reflexivity].
    apply elem_of_nil in Hin as [].
  - cbn [List.find collect_rates]. unfold unavailable at 1.
    destruct (price_of data sym') as [price |] eqn:Hprice; [| discriminate].
    intros Hrest. unfold price_of in Hprice.
    destruct (opt_prop "kzt" (opt_prop (idMap sym') (Some data)))
      as [[| b | x | str | items | fields] |] eqn:Hp; try discriminate.
    injection Hprice as ->.
    destruct (IH (<[sym' := price]> result) Hrest) as (rates & Hrates & Hlookup).
    exists rates. split; [exact Hrates |]. intros sym. rewrite Hlookup.
    destruct (decide (sym ∈ rest)) as [Hin | Hnin].
    + rewrite decide_True by (right; exact Hin). reflexivity.
    + destruct (decide (sym = sym')) as [-> | Hne].
      * rewrite decide_True by left. rewrite lookup_insert_eq.
        unfold price_of. rewrite Hp. reflexivity.
      * rewrite lookup_insert_ne by congruence.
        rewrite decide_False; [reflexivity |].
        intros Hin. apply elem_of_cons in Hin as [? | ?]; contradiction.
Qed.

(** C4 (as the code has it).  On a usable answer of the provider the
    batch is all or nothing: when some requested symbol has no numeric
    rate the operation throws, naming the first such symbol in request
    order, and returns no rate at all; otherwise it returns the rate of
    each requested symbol and nothing else. *)
Theorem rates_all_or_nothing {S : Type} (srv : Server S) (symbols : list SupportedCrypto)
    (s : S) (response : Response) (data : JSON) :
  (srv s (rates_request symbols)).1 = inr response ->
  ok response = true ->
  json response = inr data ->
  match List.find (unavailable data) symbols with
  | Some sym =>
      outcome (run srv (getCryptoRatesKZT symbols) s)
      = Threw (Error ("Rate for " ++ symbol_name sym ++ " not available"))
  | None =>
      exists rates,
        outcome (run srv (getCryptoRatesKZT symbols) s) = Returned rates /\
        forall sym, rates !! sym = if decide (sym ∈ symbols) then price_of data sym else None
  end.
Proof.
  intros Hsrv Hok Hjson.
  unfold getCryptoRatesKZT. fold (rates_request symbols).
  rewrite run_bind, run_fetch, Hsrv. cbn [fst snd]. rewrite Hok. cbn [negb].
  rewrite run_bind, run_await, Hjson, run_await.
  destruct (List.find (unavailable data) symbols) as [sym |] eqn:Hfind.
  - rewrite (collect_rates_throws data symbols ∅ sym Hfind). reflexivity.
  - destruct (collect_rates_returns data symbols ∅ Hfind) as (rates & -> & Hlookup).
    exists rates. split; [reflexivity |]. intros sym. rewrite Hlookup.
    destruct (decide (sym ∈ symbols)); [reflexivity | apply lookup_empty].
Qed.

(** C4 fails as stated: asked for BTC and ETH when the provider has a
    rate for BTC only, the operation throws instead of returning the BTC
    rate with a failure list. *)
Lemma rates_one_missing_fails_batch :
  let s := [replies Sample.bitcoin_only] in
  price_of Sample.bitcoin_only BTC = Some (Js.ofZ 50000000) /\
  price_of Sample.bitcoin_only ETH = None /\
  outcome (run Sample.scripted (getCryptoRatesKZT [BTC; ETH]) s)
  = Threw (Error "Rate for ETH not available").
Proof. cbv zeta. repeat split. Qed.

Lemma rates_all_or_nothing_witness :
  exists rates,
    outcome (run Sample.scripted (getCryptoRatesKZT [BTC])
               [replies Sample.bitcoin_only]) = Returned rates /\
    rates !! BTC = Some (Js.ofZ 50000000) /\ rates !! ETH = None.
Proof.
  destruct (rates_all_or_nothing Sample.scripted [BTC]
              [replies Sample.bitcoin_only] _ Sample.bitcoin_only
              eq_refl eq_refl eq_refl) as (rates & Hout & Hlookup).
  exists rates. split; [exact Hout |].
  split; [exact (Hlookup BTC) | exact (Hlookup ETH)].
Defined.

(** ** Requests to the backend *)

Section Requests.

Variable backendURL : string.
Variable toString : Js.number -> string.

(** C7 (as the code has it).  The amount of every deposit, withdrawal and
    transfer request, the two legs of a conversion included, is written
    by [JSON.stringify] from a number: it is a JSON number, or [null]
    when the number is not finite, and never a string. *)
Theorem amounts_sent_as_json_numbers :
  (forall (S : Type) (srv : Server S) (s : S) (userId : Js.number)
          (d : TransactionDepositRequest) (w : TransactionWithdrawalRequest)
          (t : TransactionTransferRequest),
      requests (trace (run srv (createDeposit backendURL toString userId d) s))
      = [deposit_request backendURL toString userId d] /\
      requests (trace (run srv (createWithdrawal backendURL toString userId w) s))
      = [withdrawal_request backendURL toString userId w] /\
      requests (trace (run srv (createTransfer backendURL toString userId t) s))
      = [transfer_request backendURL toString userId t] /\
      body_field "amount" (deposit_request backendURL toString userId d)
      = Some (json_number (dep_amount d)) /\
      body_field "amount" (withdrawal_request backendURL toString userId w)
      = Some (json_number (wd_amount w)) /\
      body_field "amount" (transfer_request backendURL toString userId t)
      = Some (json_number (tr_amount t))) /\
  (forall p : ConvertParams,
      body_field "amount" (withdrawal_leg backendURL toString p)
      = Some (json_number (amountCrypto p)) /\
      body_field "amount" (deposit_leg backendURL toString p)
      = Some (json_number
                (Js.Number (Js.toFixed (Js.mul (amountCrypto p) (rateKZTPerCrypto p)) 2)))) /\
  (forall x : Js.number,
      json_number x = JNull \/ exists y, json_number x = JNumber y /\ Js.isFinite y = true) /\
  (forall (x : Js.number) (str : string), json_number x <> JString str).
Proof.
  split; [| split; [| split]].
  - intros S srv s userId d w t.
    unfold createDeposit, createWithdrawal, createTransfer.
    rewrite !run_call. repeat split.
  - intros p. split; reflexivity.
  - intros [sg | sg | | sg m e]; cbn; eauto.
  - intros x str. apply json_number_not_string.
Qed.

(** C10.  A transactions request always carries [skip] and [limit], 0 and
    100 when the caller leaves them out; it carries [account_id] exactly
    when an account id is given that is neither zero nor NaN, so that a
    filter on account 0 asks for the same list as no filter. *)
Theorem transactions_query {S : Type} (srv : Server S) (s : S) (userId : Js.number)
    (filters : option TransactionFilters) :
  let rq := transactions_request backendURL toString userId filters in
  let q := query (url rq) in
  requests (trace (run srv (getUserTransactions backendURL toString userId filters) s)) = [rq] /\
  param "skip" q = Some (toString (default (Js.ofZ 0) (filters ≫= skip))) /\
  param "limit" q = Some (toString (default (Js.ofZ 100) (filters ≫= limit))) /\
  param "account_id" q
  = match filters ≫= account_id with
    | Some a => if Js.truthy a then Some (toString a) else None
    | None => None
    end /\
  (forall (f : TransactionFilters) (sign : bool),
      filters = Some f -> account_id f = Some (S754_zero sign) ->
      q = transaction_params toString
            (Some {| account_id := None; transaction_type := transaction_type f;
                     skip := skip f; limit := limit f |})).
Proof.
  cbv zeta. split.
  { unfold getUserTransactions. rewrite run_call. reflexivity. }
  unfold transactions_request, transaction_params. cbn [url query].
  repeat split.
  - destruct (filters ≫= account_id) as [a |]; [destruct (Js.truthy a) |];
      destruct (filters ≫= transaction_type) as [t |]; try destruct (String.eqb t "");
      reflexivity.
  - destruct (filters ≫= account_id) as [a |]; [destruct (Js.truthy a) |];
      destruct (filters ≫= transaction_type) as [t |]; try destruct (String.eqb t "");
      reflexivity.
  - destruct (filters ≫= account_id) as [a |]; [destruct (Js.truthy a) |];
      destruct (filters ≫= transaction_type) as [t |]; try destruct (String.eqb t "");
      reflexivity.
  - intros f sign -> Hacc. cbn. rewrite Hacc. reflexivity.
Qed.

End Requests.

(** C7 fails as stated: the body of this deposit request holds its amount
    as the JSON number 0.13, not as a string. *)
Lemma deposit_amount_is_json_number :
  let rq := deposit_request Sample.backendURL Sample.toString (Js.ofZ 7) Sample.small_deposit in
  body rq = Some (JObject [("account_id", JNumber (Js.ofZ 2));
                           ("amount", JNumber (Js.Number (Js.FS_Decimal false 13 2)));
                           ("currency", JString "KZT")]) /\
  ~ (exists str, body_field "amount" rq = Some (JString str)).
Proof.
  cbv zeta. split; [vm_compute; reflexivity |].
  intros (str & H). vm_compute in H. discriminate.
Qed.

Lemma transactions_query_witness :
  let f := {| account_id := Some (Js.ofZ 0); transaction_type := None;
              skip := None; limit := Some (Js.ofZ 100) |} in
  transaction_params Sample.toString (Some f) = [("skip", "0"); ("limit", "100")].
Proof.
  cbv zeta.
  destruct (transactions_query Sample.backendURL Sample.toString Sample.scripted []
              (Js.ofZ 7)
              (Some {| account_id := Some (Js.ofZ 0); transaction_type := None;
                       skip := None; limit := Some (Js.ofZ 100) |}))
    as (_ & _ & _ & _ & Hzero).
  specialize (Hzero _ false eq_refl eq_refl).
  cbn [transactions_request url query] in Hzero.
  rewrite Hzero. vm_compute. reflexivity.
Defined.

(** ** The wallet screen, run against any backend *)

Lemma run_try_catch {A S : Type} (srv : Server S) (p : Prog A) (h : Exn -> Prog A) (s : S) :
  run srv (try_catch p h) s =
  match run srv p s with
  | (Returned a, t, s1) => (Returned a, t, s1)
  | (Threw e, t, s1) => let '(o, t', s2) := run srv (h e) s1 in (o, (t ++ t')%list, s2)
  end.
Proof.
  revert s. induction p as [a | e | rq k IH | u k IH]; intros s; simpl.
  - reflexivity.
  - destruct (run srv (h e) s) as [[o t] s2]. reflexivity.
  - destruct (srv s rq) as [r s1]. rewrite IH.
    destruct (run srv (k r) s1) as [[[a | e] t] s2]; [reflexivity |].
    destruct (run srv (h e) s2) as [[o t'] s3]. reflexivity.
  - rewrite IH.
    destruct (run srv k s) as [[[a | e] t] s1]; [reflexivity |].
    destruct (run srv (h e) s1) as [[o t'] s2]. reflexivity.
Qed.

Lemma run_finally {A S : Type} (srv : Server S) (p : Prog A) (f : Prog unit) (s : S) :
  run srv (finally p f) s =
  let '(o, t, s1) := run srv p s in
  match run srv f s1 with
  | (Returned _, t', s2) => (o, (t ++ t')%list, s2)
  | (Threw e, t', s2) => (Threw e, (t ++ t')%list, s2)
  end.
Proof.
  revert s. induction p as [a | e | rq k IH | u k IH]; intros s; simpl.
  - pose proof (run_bind srv f (fun _ => Ret a) s) as H.
    unfold mbind, Prog_bind in H. rewrite H.
    destruct (run srv f s) as [[[[] | e] t] s1]; simpl; [rewrite app_nil_r |]; reflexivity.
  - pose proof (run_bind srv f (fun _ => @Throw A e) s) as H.
    unfold mbind, Prog_bind in H. rewrite H.
    destruct (run srv f s) as [[[[] | e'] t] s1]; simpl; [rewrite app_nil_r |]; reflexivity.
  - destruct (srv s rq) as [r s1]. rewrite IH.
    destruct (run srv (k r) s1) as [[o t] s2].
    destruct (run srv f s2) as [[[[] | e] t'] s3]; reflexivity.
  - rewrite IH.
    destruct (run srv k s) as [[o t] s1].
    destruct (run srv f s1) as [[[[] | e] t'] s2]; reflexivity.
Qed.

Lemma run_act {S : Type} (srv : Server S) (u : UiAction) (s : S) :
  run srv (act u) s = (Returned tt, [Acted u], s).
Proof. reflexivity. Qed.

Lemma run_mret {A S : Type} (srv : Server S) (a : A) (s : S) :
  run srv (mret a) s = (Returned a, [], s).
Proof. reflexivity. Qed.

Lemma run_notify {S : Type} (srv : Server S) (os title web_msg msg : string) (s : S) :
  run srv (notify os title web_msg msg) s
  = (Returned tt,
     [Acted (if String.eqb os "web" then alert web_msg else Alert_alert title msg)], s).
Proof. unfold notify. destruct (String.eqb os "web"); reflexivity. Qed.

Section WalletProperties.

Variable backendURL : string.
Variable toString : Js.number -> string.
Variable parseFloat : string -> Js.number.
Variable parseInt : string -> Js.number.
Variable Platform_OS : string.
Variable ToNumber : JSON -> Exn + Js.number.

Local Abbreviation load := (loadData backendURL toString Platform_OS ToNumber).
Local Abbreviation handle :=
  (handleTransaction backendURL toString parseFloat parseInt Platform_OS ToNumber).
Local Abbreviation accReq := (accounts_request backendURL toString).
Local Abbreviation createReq := (creation_request backendURL).
Local Abbreviation txReq u := (transactions_request backendURL toString (id u) first_hundred).

Lemma run_getUserAccounts {S : Type} (srv : Server S) (s : S) (u : UserData) :
  run srv (getUserAccounts backendURL toString (id u)) s =
  (answered "Failed to fetch accounts" (srv s (accReq u)).1,
   [Fetched (accReq u) (srv s (accReq u)).1], (srv s (accReq u)).2).
Proof. unfold getUserAccounts. apply run_call. Qed.

Lemma run_createAccount {S : Type} (srv : Server S) (s : S) (u : UserData) :
  run srv (createAccount backendURL (default_account u)) s =
  (answered "Failed to create account" (srv s (createReq u)).1,
   [Fetched (createReq u) (srv s (createReq u)).1], (srv s (createReq u)).2).
Proof. unfold createAccount. apply run_call. Qed.

Lemma run_getUserTransactions {S : Type} (srv : Server S) (s : S) (userId : Js.number)
    (filters : option TransactionFilters) :
  run srv (getUserTransactions backendURL toString userId filters) s =
  (answered "Failed to fetch transactions"
     (srv s (transactions_request backendURL toString userId filters)).1,
   [Fetched (transactions_request backendURL toString userId filters)
      (srv s (transactions_request backendURL toString userId filters)).1],
   (srv s (transactions_request backendURL toString userId filters)).2).
Proof. unfold getUserTransactions. apply run_call. Qed.

Ltac run_step :=
  first [ rewrite run_finally | rewrite run_try_catch | rewrite run_bind
        | rewrite run_act | rewrite run_await | rewrite run_mret | rewrite run_notify
        | rewrite run_getUserAccounts | rewrite run_createAccount
        | rewrite run_getUserTransactions ];
  cbv beta iota zeta; cbn [fst snd read_length].

Ltac answer H :=
  rewrite H;
  cbn [fst snd answered replies settled json ok
       length_is_zero length_is_positive first_item head].

Ltac start_load u Hid :=
  unfold loadData; rewrite Hid; cbn [negb];
  fold (default_account u); fold first_hundred.

(** C8 (as the code has it).  When the accounts fetch answers with an
    empty list, the screen issues exactly one account creation request,
    for a checking account in KZT with balance zero and no status; when
    that request succeeds and the transactions fetch succeeds with a
    reply that is not [null], the account the backend answered with is
    the one set for display.  When the list is not empty, no creation
    request is issued and, if the transactions fetch succeeds with a
    reply that is not [null], the first account of the list is set for
    display. *)
Theorem loadData_default_account {S : Type} (srv : Server S) (s s1 : S) (u : UserData) :
  Js.truthy (id u) = true ->
  (srv s (accReq u) = (replies (JArray []), s1) ->
   (exists rest,
       requests (trace (run srv (load (Some u)) s)) = accReq u :: createReq u :: rest /\
       (rest = [] \/ rest = [txReq u])) /\
   body (createReq u)
   = Some (JObject [("user_id", json_number (id u)); ("account_type", JString "checking");
                    ("balance", JNumber (S754_zero false)); ("currency", JString "KZT")]) /\
   (forall (s2 s3 : S) (newAccount txs : JSON),
       srv s1 (createReq u) = (replies newAccount, s2) ->
       srv s2 (txReq u) = (replies txs, s3) ->
       txs <> JNull ->
       run srv (load (Some u)) s
       = (Returned tt,
          [Acted (setLoading true);
           Fetched (accReq u) (replies (JArray []));
           Fetched (createReq u) (replies newAccount);
           Fetched (txReq u) (replies txs);
           Acted (setAccount (Some newAccount));
           Acted (setTransactions txs);
           Acted (setLoading false)], s3))) /\
  (forall (a : JSON) (others : list JSON),
      srv s (accReq u) = (replies (JArray (a :: others)), s1) ->
      requests (trace (run srv (load (Some u)) s)) = [accReq u; txReq u] /\
      ~ is_account_creation backendURL (accReq u) /\
      ~ is_account_creation backendURL (txReq u) /\
      (forall (s2 : S) (txs : JSON),
          srv s1 (txReq u) = (replies txs, s2) ->
          txs <> JNull ->
          run srv (load (Some u)) s
          = (Returned tt,
             [Acted (setLoading true);
              Fetched (accReq u) (replies (JArray (a :: others)));
              Fetched (txReq u) (replies txs);
              Acted (setAccount (Some a));
              Acted (setTransactions txs);
              Acted (setLoading false)], s2))).
Proof.
  intros Hid. split.
  - intros H1. split; [| split].
    + start_load u Hid. repeat run_step. answer H1. repeat run_step.
      destruct (srv s1 (createReq u)) as [r2 s2]; cbn [fst snd].
      destruct (answered "Failed to create account" r2) as [newAccount | e].
      * repeat run_step.
        destruct (srv s2 (txReq u)) as [r3 s3]; cbn [fst snd].
        exists [txReq u]. split; [| right; reflexivity].
        destruct (answered "Failed to fetch transactions" r3) as [txs | e];
          [destruct txs |]; repeat run_step; reflexivity.
      * repeat run_step. exists []. split; [reflexivity | left; reflexivity].
    + reflexivity.
    + intros s2 s3 newAccount txs H2 H3 Htxs.
      start_load u Hid. repeat run_step. answer H1. repeat run_step.
      answer H2. repeat run_step. answer H3.
      destruct txs; [contradiction | ..]; repeat run_step; reflexivity.
  - intros a others H1. split; [| split; [| split]].
    + start_load u Hid. repeat run_step. answer H1. repeat run_step.
      destruct (srv s1 (txReq u)) as [r3 s3]; cbn [fst snd].
      destruct (answered "Failed to fetch transactions" r3) as [txs | e];
        [destruct txs |]; repeat run_step; reflexivity.
    + intros [Hm _]. discriminate.
    + intros [Hm _]. discriminate.
    + intros s2 txs H3 Htxs.
      start_load u Hid. repeat run_step. answer H1. repeat run_step.
      answer H3.
      destruct txs; [contradiction | ..]; repeat run_step; reflexivity.
Qed.

(** C5.  A conversion whose amount is not above zero throws
    [Amount must be positive], and a form submission whose parsed amount
    is NaN or not above zero shows [Please enter a valid amount]; either
    way no request is issued and the backend state is left as it was. *)
Theorem nonpositive_amount_rejected_locally {S : Type} (srv : Server S) (s : S) :
  (forall p : ConvertParams,
      Js.leb (amountCrypto p) (Js.ofZ 0) = true ->
      run srv (convertCryptoToKZT backendURL toString p) s
      = (Threw (Error "Amount must be positive"), [], s)) /\
  (forall (u : UserData) (a : Account) (modalType : option TransactionModalType)
          (amount toAccountId description : string),
      Js.isNaN (parseFloat amount) || Js.leb (parseFloat amount) (Js.ofZ 0) = true ->
      let r := run srv (handle (Some u) (Some a) modalType amount toAccountId description) s in
      requests (trace r) = [] /\
      final r = s /\
      r = (Returned tt,
           [Acted (if String.eqb Platform_OS "web"
                   then alert "Please enter a valid amount"
                   else Alert_alert "Invalid Amount" "Please enter a valid amount")], s)).
Proof.
  split.
  - intros p Hle. rewrite convert_run, Hle. reflexivity.
  - intros u a modalType amount toAccountId description Hbad. cbv zeta.
    unfold handleTransaction. rewrite Hbad, run_notify. repeat split.
Qed.

End WalletProperties.

(** C8 fails as stated: on this first visit the account is created, the
    transactions fetch is refused, and the screen ends the load without
    ever setting an account for display; the creation request names no
    status. *)
Lemma created_account_not_displayed :
  let r := run Sample.scripted
             (loadData Sample.backendURL Sample.toString Sample.Platform_OS Sample.ToNumber
                (Some Sample.user)) Sample.transactions_unavailable in
  trace r
  = [Acted (setLoading true);
     Fetched (accounts_request Sample.backendURL Sample.toString Sample.user)
       (replies (JArray []));
     Fetched (creation_request Sample.backendURL Sample.user) (replies Sample.new_account);
     Fetched (transactions_request Sample.backendURL Sample.toString (Js.ofZ 7) first_hundred)
       (refuses "Service unavailable");
     Acted (alert "Error loading data: Service unavailable");
     Acted (setLoading false)] /\
  ~ (exists a, In (Acted (setAccount a)) (trace r)) /\
  body_field "status" (creation_request Sample.backendURL Sample.user) = None.
Proof.
  cbv zeta.
  assert (Ht : trace (run Sample.scripted
                        (loadData Sample.backendURL Sample.toString Sample.Platform_OS
                           Sample.ToNumber (Some Sample.user))
                        Sample.transactions_unavailable)
               = [Acted (setLoading true);
                  Fetched (accounts_request Sample.backendURL Sample.toString Sample.user)
                    (replies (JArray []));
                  Fetched (creation_request Sample.backendURL Sample.user)
                    (replies Sample.new_account);
                  Fetched (transactions_request Sample.backendURL Sample.toString (Js.ofZ 7)
                             first_hundred)
                    (refuses "Service unavailable");
                  Acted (alert "Error loading data: Service unavailable");
                  Acted (setLoading false)])
    by (vm_compute; reflexivity).
  rewrite Ht. split; [reflexivity |]. split; [| reflexivity].
  intros (a & Hin). cbn [In] in Hin.
  repeat (destruct Hin as [Hin | Hin]; [discriminate |]). exact Hin.
Qed.

Lemma loadData_default_account_witness :
  run Sample.scripted
    (loadData Sample.backendURL Sample.toString Sample.Platform_OS Sample.ToNumber
       (Some Sample.user)) Sample.first_visit
  = (Returned tt,
     [Acted (setLoading true);
      Fetched (accounts_request Sample.backendURL Sample.toString Sample.user)
        (replies (JArray []));
      Fetched (creation_request Sample.backendURL Sample.user) (replies Sample.new_account);
      Fetched (transactions_request Sample.backendURL Sample.toString (Js.ofZ 7) first_hundred)
        (replies (JArray []));
      Acted (setAccount (Some Sample.new_account));
      Acted (setTransactions (JArray []));
      Acted (setLoading false)], []).
Proof.
  destruct (loadData_default_account Sample.backendURL Sample.toString Sample.Platform_OS
              Sample.ToNumber Sample.scripted Sample.first_visit
              [replies Sample.new_account; replies (JArray [])] Sample.user eq_refl)
    as [Hempty _].
  destruct (Hempty eq_refl) as (_ & _ & Hshown).
  refine (Hshown [replies (JArray [])] [] Sample.new_account (JArray []) eq_refl eq_refl _).
  discriminate.
Defined.

Lemma nonpositive_amount_rejected_locally_witness :
  run Sample.scripted
    (handleTransaction Sample.backendURL Sample.toString Sample.parseDigits Sample.parseDigits
       Sample.Platform_OS Sample.ToNumber (Some Sample.user) (Some Sample.account)
       (Some deposit_modal) "0" "" "") Sample.both_accepted
  = (Returned tt, [Acted (alert "Please enter a valid amount")], Sample.both_accepted).
Proof.
  destruct (nonpositive_amount_rejected_locally Sample.backendURL Sample.toString
              Sample.parseDigits Sample.parseDigits Sample.Platform_OS Sample.ToNumber
              Sample.scripted Sample.both_accepted) as [_ Hform].
  destruct (Hform Sample.user Sample.account (Some deposit_modal) "0" "" "" eq_refl)
    as (_ & _ & Hrun).
  exact Hrun.
Defined.

(** * Further behaviour of the client *)

(** ** Conversions at the edges of their validation *)

Lemma answered_refused (fallback : string) (response : Response) :
  ok response = false ->
  answered fallback (inr response) = Threw (refusal fallback response).
Proof.
  unfold refusal.
  destruct response as [o [e | j]]; simpl; intros ->; unfold settled; simpl; [reflexivity |].
  destruct j as [| b | x | str | items | fields]; simpl; try reflexivity.
  destruct (assoc "detail" fields) as [[| b | x | str | items | fields'] |]; reflexivity.
Qed.

Section ConversionEdges.

Variable backendURL : string.
Variable toString : Js.number -> string.

Local Abbreviation convert := (convertCryptoToKZT backendURL toString).
Local Abbreviation W := (withdrawal_leg backendURL toString).
Local Abbreviation D := (deposit_leg backendURL toString).

(** X1.  The amount check of a conversion lets NaN and +Infinity through:
    the withdrawal request is issued, and its body carries [null] as the
    amount. *)
Theorem convert_accepts_nan_amount {S : Type} (srv : Server S) (p : ConvertParams) (s : S) :
  amountCrypto p = S754_nan \/ amountCrypto p = S754_infinity false ->
  (exists rest, trace (run srv (convert p) s) = Fetched (W p) (srv s (W p)).1 :: rest) /\
  body_field "amount" (W p) = Some JNull.
Proof.
  intros Hbad. rewrite convert_run.
  assert (Hle : Js.leb (amountCrypto p) (Js.ofZ 0) = false)
    by (destruct Hbad as [-> | ->]; reflexivity).
  rewrite Hle. split.
  - destruct (srv s (W p)) as [r1 s1]; cbn [fst].
    destruct (answered "Failed to create withdrawal" r1) as [w | e]; [| eauto].
    destruct (srv s1 (D p)) as [r2 s2].
    destruct (answered "Failed to create deposit" r2); eauto.
  - unfold body_field, withdrawal_leg, withdrawal_request, conversion_withdrawal. cbn.
    destruct Hbad as [-> | ->]; reflexivity.
Qed.

(** X2.  When the withdrawal leg of a conversion fails, the conversion
    throws the error of that call after this one request: the deposit is
    never asked for. *)
Theorem convert_failed_withdrawal_ends_run {S : Type} (srv : Server S) (p : ConvertParams)
    (s s1 : S) (r1 : Exn + Response) :
  Js.leb (amountCrypto p) (Js.ofZ 0) = false ->
  srv s (W p) = (r1, s1) ->
  succeeded r1 = false ->
  exists e, answered "Failed to create withdrawal" r1 = Threw e /\
            run srv (convert p) s = (Threw e, [Fetched (W p) r1], s1).
Proof.
  intros Hle Hsrv Hfail. rewrite convert_run, Hle, Hsrv.
  destruct (answered_failed "Failed to create withdrawal" r1 Hfail) as [e He].
  exists e. rewrite He. split; reflexivity.
Qed.

(** X3.  The rate of a conversion is not checked: whatever the rate, a
    conversion of an amount above zero issues its withdrawal request, and
    with a rate that is NaN the deposit request, if reached, carries
    [null] as its amount. *)
Theorem convert_does_not_check_rate {S : Type} (srv : Server S) (p : ConvertParams) (s : S) :
  Js.ltb (Js.ofZ 0) (amountCrypto p) = true ->
  (exists rest, trace (run srv (convert p) s) = Fetched (W p) (srv s (W p)).1 :: rest) /\
  (rateKZTPerCrypto p = S754_nan -> body_field "amount" (D p) = Some JNull).
Proof.
  intros Hpos.
  assert (Hle : Js.leb (amountCrypto p) (Js.ofZ 0) = false).
  { unfold Js.ltb, Js.leb, SFltb, SFleb in *.
    destruct (amountCrypto p) as [sg | sg | | sg m e]; try discriminate; try reflexivity;
      destruct sg; try discriminate; reflexivity. }
  split.
  - rewrite convert_run, Hle.
    destruct (srv s (W p)) as [r1 s1]; cbn [fst].
    destruct (answered "Failed to create withdrawal" r1) as [w | e]; [| eauto].
    destruct (srv s1 (D p)) as [r2 s2].
    destruct (answered "Failed to create deposit" r2); eauto.
  - intros Hrate. unfold body_field, deposit_leg, deposit_request, conversion_deposit. cbn.
    rewrite Hrate. destruct (amountCrypto p); reflexivity.
Qed.

End ConversionEdges.

(** ** Errors of the backend calls *)

Section BackendCalls.

Variable backendURL : string.
Variable toString : Js.number -> string.

(** X4.  Each backend call issues exactly one request.  On a response
    that is not [ok] it throws an [Error] whose message is the [detail]
    of the body when that is a string and the call's own fallback text
    otherwise (a list of validation errors is not reported); a body that
    cannot be parsed makes it throw the parser's rejection instead, and a
    [null] body a [TypeError]. *)
Theorem backend_call_refused {S : Type} (srv : Server S) (s s1 : S) (response : Response)
    (userId : Js.number) (u : UserData) :
  ok response = false ->
  (forall d, srv s (deposit_request backendURL toString userId d) = (inr response, s1) ->
     run srv (createDeposit backendURL toString userId d) s
     = (Threw (refusal "Failed to create deposit" response),
        [Fetched (deposit_request backendURL toString userId d) (inr response)], s1)) /\
  (forall d, srv s (withdrawal_request backendURL toString userId d) = (inr response, s1) ->
     run srv (createWithdrawal backendURL toString userId d) s
     = (Threw (refusal "Failed to create withdrawal" response),
        [Fetched (withdrawal_request backendURL toString userId d) (inr response)], s1)) /\
  (forall d, srv s (transfer_request backendURL toString userId d) = (inr response, s1) ->
     run srv (createTransfer backendURL toString userId d) s
     = (Threw (refusal "Failed to create transfer" response),
        [Fetched (transfer_request backendURL toString userId d) (inr response)], s1)) /\
  (forall f, srv s (transactions_request backendURL toString userId f) = (inr response, s1) ->
     run srv (getUserTransactions backendURL toString userId f) s
     = (Threw (refusal "Failed to fetch transactions" response),
        [Fetched (transactions_request backendURL toString userId f) (inr response)], s1)) /\
  (srv s (accounts_request backendURL toString u) = (inr response, s1) ->
     run srv (getUserAccounts backendURL toString (id u)) s
     = (Threw (refusal "Failed to fetch accounts" response),
        [Fetched (accounts_request backendURL toString u) (inr response)], s1)) /\
  (srv s (creation_request backendURL u) = (inr response, s1) ->
     run srv (createAccount backendURL (default_account u)) s
     = (Threw (refusal "Failed to create account" response),
        [Fetched (creation_request backendURL u) (inr response)], s1)).
Proof.
  intros Hok.
  split; [| split; [| split; [| split; [| split]]]].
  - intros d Hsrv. unfold createDeposit. rewrite run_call, Hsrv. cbn [fst snd].
    rewrite (answered_refused _ response Hok). reflexivity.
  - intros d Hsrv. unfold createWithdrawal. rewrite run_call, Hsrv. cbn [fst snd].
    rewrite (answered_refused _ response Hok). reflexivity.
  - intros d Hsrv. unfold createTransfer. rewrite run_call, Hsrv. cbn [fst snd].
    rewrite (answered_refused _ response Hok). reflexivity.
  - intros f Hsrv. rewrite run_getUserTransactions, Hsrv. cbn [fst snd].
    rewrite (answered_refused _ response Hok). reflexivity.
  - intros Hsrv. rewrite run_getUserAccounts, Hsrv. cbn [fst snd].
    rewrite (answered_refused _ response Hok). reflexivity.
  - intros Hsrv. rewrite run_createAccount, Hsrv. cbn [fst snd].
    rewrite (answered_refused _ response Hok). reflexivity.
Qed.

End BackendCalls.

(** ** The rate provider at its edges *)

(** X5.  A rates call issues exactly one request, whatever comes back.
    A rejected fetch is thrown unchanged; a response that is not [ok]
    gives [Failed to fetch crypto rates] without its body being read; a
    body that cannot be parsed gives the parser's rejection. *)
Theorem rates_call_failures {S : Type} (srv : Server S) (symbols : list SupportedCrypto) (s : S) :
  let r := run srv (getCryptoRatesKZT symbols) s in
  trace r = [Fetched (rates_request symbols) (srv s (rates_request symbols)).1] /\
  final r = (srv s (rates_request symbols)).2 /\
  (forall e, (srv s (rates_request symbols)).1 = inl e -> outcome r = Threw e) /\
  (forall response, (srv s (rates_request symbols)).1 = inr response ->
     ok response = false -> outcome r = Threw (Error "Failed to fetch crypto rates")) /\
  (forall response e, (srv s (rates_request symbols)).1 = inr response ->
     ok response = true -> json response = inl e -> outcome r = Threw e).
Proof.
  cbv zeta. unfold getCryptoRatesKZT. fold (rates_request symbols).
  rewrite run_bind, run_fetch.
  destruct (srv s (rates_request symbols)) as [[e | [[|] [e | data]]] s1];
    cbn [fst snd negb ok json];
    rewrite ?run_bind, ?run_await; cbn [fst snd];
    try (rewrite run_await; destruct (collect_rates data symbols ∅));
    unfold trace, final, outcome; cbn [fst snd];
    repeat split; intros; simplify_eq/=; reflexivity.
Qed.

(** X6.  Asked for no symbol at all, the rates call still queries the
    provider, with an empty list of ids, and returns the empty record on
    any [ok] response that parses, whatever the document. *)
Theorem rates_of_no_symbol {S : Type} (srv : Server S) (s s1 : S) (data : JSON) :
  srv s (rates_request []) = (replies data, s1) ->
  run srv (getCryptoRatesKZT []) s
  = (Returned ∅, [Fetched (rates_request []) (replies data)], s1) /\
  param "ids" (query (url (rates_request []))) = Some "".
Proof.
  intros Hsrv. split; [| reflexivity].
  unfold getCryptoRatesKZT. fold (rates_request []).
  rewrite run_bind, run_fetch, Hsrv. cbn [fst snd replies ok json negb].
  rewrite run_bind, run_await, run_await. reflexivity.
Qed.

Lemma run_rates_replied {S : Type} (srv : Server S) (symbols : list SupportedCrypto)
    (s s1 : S) (data : JSON) :
  srv s (rates_request symbols) = (replies data, s1) ->
  run srv (getCryptoRatesKZT symbols) s
  = (match collect_rates data symbols ∅ with inl e => Threw e | inr rates => Returned rates end,
     [Fetched (rates_request symbols) (replies data)], s1).
Proof.
  intros Hsrv. unfold getCryptoRatesKZT. fold (rates_request symbols).
  rewrite run_bind, run_fetch, Hsrv. cbn [fst snd replies ok json negb].
  rewrite run_bind, run_await, run_await.
  destruct (collect_rates data symbols ∅); reflexivity.
Qed.

(** X7.  The record of rates depends on which symbols are asked for, not
    on their order or repetition: answered with the same document, two
    calls for lists with the same members return the same record when
    every rate asked for is there. *)
Theorem rates_ignore_order {S : Type} (srv : Server S) (s s1 s' s1' : S) (data : JSON)
    (symbols symbols' : list SupportedCrypto) :
  (forall sym, sym ∈ symbols <-> sym ∈ symbols') ->
  List.find (unavailable data) symbols = None ->
  srv s (rates_request symbols) = (replies data, s1) ->
  srv s' (rates_request symbols') = (replies data, s1') ->
  exists rates,
    outcome (run srv (getCryptoRatesKZT symbols) s) = Returned rates /\
    outcome (run srv (getCryptoRatesKZT symbols') s') = Returned rates.
Proof.
  intros Hsame Hfind Hsrv Hsrv'.
  assert (Hfind' : List.find (unavailable data) symbols' = None).
  { destruct (List.find (unavailable data) symbols') as [sym |] eqn:Hf; [| reflexivity].
    apply find_some in Hf as [Hin Hun].
    apply list_elem_of_In, Hsame, list_elem_of_In in Hin.
    pose proof (find_none _ _ Hfind sym Hin) as Hav. congruence. }
  destruct (collect_rates_returns data symbols ∅ Hfind) as (rates & Hr & Hl).
  destruct (collect_rates_returns data symbols' ∅ Hfind') as (rates' & Hr' & Hl').
  exists rates.
  rewrite (run_rates_replied srv symbols s s1 data Hsrv), Hr.
  rewrite (run_rates_replied srv symbols' s' s1' data Hsrv'), Hr'.
  split; [reflexivity |]. unfold outcome; cbn [fst]. f_equal.
  apply map_eq. intros sym. rewrite Hl, Hl'.
  destruct (decide (sym ∈ symbols)) as [Hin | Hnin].
  - rewrite decide_True by (apply Hsame; exact Hin). reflexivity.
  - rewrite decide_False; [reflexivity |]. intros Hin. apply Hnin, Hsame, Hin.
Qed.

(** ** The query of a transactions request *)

Section TransactionQuery.

Variable toString : Js.number -> string.

(** X8.  The transaction type filter is sent exactly when it is a
    non-empty string.  A skip or limit that is given is sent as it is,
    even 0 or NaN: only a missing one takes the default.  The parameters
    come in the order skip, limit, account_id, transaction_type. *)
Theorem transaction_query_shape (filters : option TransactionFilters) :
  let q := transaction_params toString filters in
  param "transaction_type" q
  = match filters ≫= transaction_type with
    | Some t => if String.eqb t "" then None else Some t
    | None => None
    end /\
  (forall x, filters ≫= skip = Some x -> param "skip" q = Some (toString x)) /\
  (forall x, filters ≫= limit = Some x -> param "limit" q = Some (toString x)) /\
  map fst q
  = (["skip"; "limit"]
     ++ match param "account_id" q with Some _ => ["account_id"] | None => [] end
     ++ match param "transaction_type" q with Some _ => ["transaction_type"] | None => [] end)%list.
Proof.
  cbv zeta. unfold transaction_params.
  destruct (filters ≫= skip) as [sk |]; destruct (filters ≫= limit) as [li |];
    destruct (filters ≫= account_id) as [a |]; try destruct (Js.truthy a);
    destruct (filters ≫= transaction_type) as [t |];
    try destruct (String.eqb t "") eqn:Ht;
    cbn; rewrite ?Ht; repeat split; intros x [= <-]; reflexivity.
Qed.

End TransactionQuery.

(** ** The wallet screen under failures *)

Section WalletBehaviour.

Variable backendURL : string.
Variable toString : Js.number -> string.
Variable parseFloat : string -> Js.number.
Variable parseInt : string -> Js.number.
Variable Platform_OS : string.
Variable ToNumber : JSON -> Exn + Js.number.

Local Abbreviation load := (loadData backendURL toString Platform_OS ToNumber).
Local Abbreviation handle :=
  (handleTransaction backendURL toString parseFloat parseInt Platform_OS ToNumber).
Local Abbreviation accReq := (accounts_request backendURL toString).
Local Abbreviation createReq := (creation_request backendURL).
Local Abbreviation txReq u := (transactions_request backendURL toString (id u) first_hundred).

Ltac run_step :=
  first [ rewrite run_call | rewrite run_finally | rewrite run_try_catch | rewrite run_bind
        | rewrite run_act | rewrite run_await | rewrite run_mret | rewrite run_notify
        | rewrite run_getUserAccounts | rewrite run_createAccount
        | rewrite run_getUserTransactions ];
  cbv beta iota zeta; cbn [fst snd read_length].

(** A load for a known user starts by raising the loading flag, ends by
    lowering it, and returns; when its work in between throws, the error
    is shown just before the flag is lowered. *)
Lemma loadData_guarded {S : Type} (srv : Server S) (u : UserData) (s : S) :
  Js.truthy (id u) = true ->
  exists middle s1,
    run srv (load (Some u)) s
    = (Returned tt, (Acted (setLoading true) :: middle ++ [Acted (setLoading false)])%list, s1).
Proof.
  intros Hid. unfold loadData. rewrite Hid. cbn [negb].
  rewrite run_finally, run_try_catch, run_bind, run_act. cbv beta iota zeta.
  match goal with
  | |- context [run srv ?p s] => destruct (run srv p s) as [[[[] | e] t] s1]
  end; cbv beta iota zeta.
  - rewrite run_act. eexists t, s1. reflexivity.
  - rewrite run_notify. cbv beta iota zeta. rewrite run_act.
    eexists _, s1. cbn [app]. reflexivity.
Qed.

Lemma loadData_returns {S : Type} (srv : Server S) (user : option UserData) (s : S) :
  outcome (run srv (load user) s) = Returned tt.
Proof.
  destruct user as [u |]; [| reflexivity].
  destruct (Js.truthy (id u)) eqn:Hid.
  - destruct (loadData_guarded srv u s Hid) as (middle & s1 & ->). reflexivity.
  - unfold loadData. rewrite Hid. reflexivity.
Qed.

(** X9.  Loading the wallet never throws.  Without a user, or for a user
    whose id is 0 or NaN, it does nothing at all; otherwise it raises the
    loading flag first and lowers it last, whatever the backend does. *)
Theorem loadData_never_throws {S : Type} (srv : Server S) (user : option UserData) (s : S) :
  outcome (run srv (load user) s) = Returned tt /\
  match user with
  | Some u =>
      if Js.truthy (id u) then
        exists middle,
          trace (run srv (load user) s)
          = (Acted (setLoading true) :: middle ++ [Acted (setLoading false)])%list
      else run srv (load user) s = (Returned tt, [], s)
  | None => run srv (load user) s = (Returned tt, [], s)
  end.
Proof.
  split; [apply loadData_returns |].
  destruct user as [u |]; [| reflexivity].
  destruct (Js.truthy (id u)) eqn:Hid.
  - destruct (loadData_guarded srv u s Hid) as (middle & s1 & ->). eauto.
  - unfold loadData. rewrite Hid. reflexivity.
Qed.

(** X10.  When the accounts cannot be fetched, the load stops after that
    one request: it shows the error (a default text when the error has no
    message), creates no account and sets neither account nor
    transactions. *)
Theorem loadData_accounts_failure {S : Type} (srv : Server S) (u : UserData) (s s1 : S)
    (r : Exn + Response) :
  Js.truthy (id u) = true ->
  srv s (accReq u) = (r, s1) ->
  succeeded r = false ->
  exists e,
    answered "Failed to fetch accounts" r = Threw e /\
    run srv (load (Some u)) s
    = (Returned tt,
       [Acted (setLoading true);
        Fetched (accReq u) r;
        notice Platform_OS "Error loading data"
          ("Error loading data: " ++ load_error_text e) (load_error_text e);
        Acted (setLoading false)], s1).
Proof.
  intros Hid Hsrv Hfail.
  destruct (answered_failed "Failed to fetch accounts" r Hfail) as [e He].
  exists e. split; [exact He |].
  unfold loadData. rewrite Hid. cbn [negb].
  fold (default_account u). fold first_hundred.
  repeat run_step. rewrite Hsrv. cbn [fst snd]. rewrite He. cbv beta iota zeta.
  repeat run_step. reflexivity.
Qed.

(** X23.  When the accounts were fetched and the transactions cannot
    be, the load shows the error and sets neither: the accounts it
    already holds are not put on display. *)
Theorem loadData_transactions_failure {S : Type} (srv : Server S) (u : UserData) (s s1 s2 : S)
    (first_account : JSON) (others : list JSON) (r : Exn + Response) :
  Js.truthy (id u) = true ->
  srv s (accReq u) = (replies (JArray (first_account :: others)), s1) ->
  srv s1 (txReq u) = (r, s2) ->
  succeeded r = false ->
  exists e,
    answered "Failed to fetch transactions" r = Threw e /\
    run srv (load (Some u)) s
    = (Returned tt,
       [Acted (setLoading true);
        Fetched (accReq u) (replies (JArray (first_account :: others)));
        Fetched (txReq u) r;
        notice Platform_OS "Error loading data"
          ("Error loading data: " ++ load_error_text e) (load_error_text e);
        Acted (setLoading false)], s2).
Proof.
  intros Hid Hacc Htx Hfail.
  destruct (answered_failed "Failed to fetch transactions" r Hfail) as [e He].
  exists e. split; [exact He |].
  unfold loadData. rewrite Hid. cbn [negb].
  fold (default_account u). fold first_hundred.
  repeat run_step. rewrite Hacc.
  cbn [fst snd answered replies settled json ok length_is_zero]. repeat run_step.
  rewrite Htx. cbn [fst snd]. rewrite He. cbv beta iota zeta.
  repeat run_step. reflexivity.
Qed.

(** X24.  When the transactions fetch succeeds with the reply [null],
    the load fails on reading the length of that reply: it shows the
    error and sets neither account nor transactions, although the
    accounts were fetched. *)
Theorem loadData_null_transactions {S : Type} (srv : Server S) (u : UserData) (s s1 s2 : S)
    (first_account : JSON) (others : list JSON) :
  Js.truthy (id u) = true ->
  srv s (accReq u) = (replies (JArray (first_account :: others)), s1) ->
  srv s1 (txReq u) = (replies JNull, s2) ->
  exists e,
    run srv (load (Some u)) s
    = (Returned tt,
       [Acted (setLoading true);
        Fetched (accReq u) (replies (JArray (first_account :: others)));
        Fetched (txReq u) (replies JNull);
        notice Platform_OS "Error loading data"
          ("Error loading data: " ++ load_error_text e) (load_error_text e);
        Acted (setLoading false)], s2).
Proof.
  intros Hid Hacc Htx.
  exists (TypeError "Cannot read properties of null (reading 'length')").
  unfold loadData. rewrite Hid. cbn [negb].
  fold (default_account u). fold first_hundred.
  repeat run_step. rewrite Hacc.
  cbn [fst snd answered replies settled json ok length_is_zero]. repeat run_step.
  rewrite Htx. cbn [fst snd answered replies settled json ok]. repeat run_step.
  reflexivity.
Qed.

Lemma run_closeModal {S : Type} (srv : Server S) (s : S) :
  run srv closeModal s = (Returned tt, modal_closed, s).
Proof. reflexivity. Qed.

(** Every run of a submitted form whose amount passes its check. *)
Lemma handle_run {S : Type} (srv : Server S) (u : UserData) (a : Account)
    (modalType : option TransactionModalType) (amount toAccountId description : string) (s : S) :
  valid_amount (parseFloat amount) = true ->
  run srv (handle (Some u) (Some a) modalType amount toAccountId description) s =
  if valid_destination modalType (parseInt toAccountId) then
    match submission backendURL toString u a modalType (parseFloat amount)
            (parseInt toAccountId) description with
    | Some (rq, fallback) =>
        let '(r, s1) := srv s rq in
        match answered fallback r with
        | Threw e =>
            (Returned tt,
             [Acted (setProcessing true); Fetched rq r;
              notice Platform_OS "Error" ("Error: " ++ message e) (message e);
              Acted (setProcessing false)], s1)
        | Returned _ =>
            let '(_, t, s2) := run srv (load (Some u)) s1 in
            (Returned tt,
             ([Acted (setProcessing true); Fetched rq r] ++ modal_closed ++ t ++
              [notice Platform_OS "Success" "Transaction completed successfully!"
                 "Transaction completed successfully!";
               Acted (setProcessing false)])%list, s2)
        end
    | None =>
        let '(_, t, s2) := run srv (load (Some u)) s in
        (Returned tt,
         ([Acted (setProcessing true)] ++ modal_closed ++ t ++
          [notice Platform_OS "Success" "Transaction completed successfully!"
             "Transaction completed successfully!";
           Acted (setProcessing false)])%list, s2)
    end
  else
    (Returned tt,
     [Acted (setProcessing true);
      notice Platform_OS "Invalid Account ID" "Please enter a valid account ID"
        "Please enter a valid account ID";
      Acted (setProcessing false)], s).
Proof.
  unfold valid_amount. intros Hvalid. apply negb_true_iff in Hvalid.
  unfold handleTransaction. rewrite Hvalid.
  assert (Hload : forall s1, exists t s2,
             run srv (load (Some u)) s1 = (Returned tt, t, s2)).
  { intros s1. pose proof (loadData_returns srv (Some u) s1) as Ho.
    destruct (run srv (load (Some u)) s1) as [[o t] s2]. unfold outcome in Ho; cbn in Ho.
    subst o. eauto. }
  destruct modalType as [[| |] |]; cbn [valid_destination submission].
  - unfold createDeposit. repeat run_step.
    match goal with |- context [srv s ?rq] => destruct (srv s rq) as [r s1] end.
    cbn [fst snd].
    match goal with |- context [answered ?fb r] => destruct (answered fb r) as [j | e] end;
      cbv beta iota zeta; repeat run_step; [| reflexivity].
    rewrite run_closeModal. cbv beta iota zeta. repeat run_step.
    destruct (Hload s1) as (t & s2 & ->). cbv beta iota zeta. repeat run_step.
    unfold notice. cbn [app]. rewrite <- !app_assoc. reflexivity.
  - unfold createWithdrawal. repeat run_step.
    match goal with |- context [srv s ?rq] => destruct (srv s rq) as [r s1] end.
    cbn [fst snd].
    match goal with |- context [answered ?fb r] => destruct (answered fb r) as [j | e] end;
      cbv beta iota zeta; repeat run_step; [| reflexivity].
    rewrite run_closeModal. cbv beta iota zeta. repeat run_step.
    destruct (Hload s1) as (t & s2 & ->). cbv beta iota zeta. repeat run_step.
    unfold notice. cbn [app]. rewrite <- !app_assoc. reflexivity.
  - destruct (Js.isNaN (parseInt toAccountId) || Js.leb (parseInt toAccountId) (Js.ofZ 0));
      cbn [negb].
    + repeat run_step. reflexivity.
    + unfold createTransfer. repeat run_step.
      match goal with |- context [srv s ?rq] => destruct (srv s rq) as [r s1] end.
      cbn [fst snd].
      match goal with |- context [answered ?fb r] => destruct (answered fb r) as [j | e] end;
        cbv beta iota zeta; repeat run_step; [| reflexivity].
      rewrite run_closeModal. cbv beta iota zeta. repeat run_step.
      destruct (Hload s1) as (t & s2 & ->). cbv beta iota zeta. repeat run_step.
      unfold notice. cbn [app]. rewrite <- !app_assoc. reflexivity.
  - repeat run_step. rewrite run_closeModal. cbv beta iota zeta. repeat run_step.
    destruct (Hload s) as (t & s2 & ->). cbv beta iota zeta. repeat run_step.
    unfold notice. cbn [app]. rewrite <- !app_assoc. reflexivity.
Qed.

(** X11.  Submitting the form never throws.  Without a user or an
    account it does nothing at all; with an amount that passes its check
    it raises the processing flag first and lowers it last, whatever the
    backend does. *)
Theorem handleTransaction_never_throws {S : Type} (srv : Server S)
    (user : option UserData) (account : option Account)
    (modalType : option TransactionModalType) (amount toAccountId description : string) (s : S) :
  let r := run srv (handle user account modalType amount toAccountId description) s in
  outcome r = Returned tt /\
  (user = None \/ account = None -> r = (Returned tt, [], s)) /\
  (is_Some user -> is_Some account -> valid_amount (parseFloat amount) = true ->
   exists middle,
     trace r = (Acted (setProcessing true) :: middle ++ [Acted (setProcessing false)])%list).
Proof.
  cbv zeta. destruct user as [u |], account as [a |];
    try solve [ split; [reflexivity |]; split; [intros _; reflexivity |];
                intros [? Hu] [? Ha]; discriminate ].
  destruct (valid_amount (parseFloat amount)) eqn:Hvalid.
  - rewrite (handle_run srv u a modalType amount toAccountId description s Hvalid).
    assert (Hload : forall s1, exists t s2,
               run srv (load (Some u)) s1 = (Returned tt, t, s2)).
    { intros s1. pose proof (loadData_returns srv (Some u) s1) as Ho.
      destruct (run srv (load (Some u)) s1) as [[o t] s2]. unfold outcome in Ho; cbn in Ho.
      subst o. eauto. }
    destruct (valid_destination modalType (parseInt toAccountId)).
    + destruct (submission _ _ _ _ _ _ _ _) as [[rq fallback] |].
      * destruct (srv s rq) as [r s1].
        destruct (answered fallback r) as [j | e].
        -- destruct (Hload s1) as (t & s2 & ->).
           split; [reflexivity |]. split; [intros [H | H]; discriminate |].
           intros _ _ _. eexists (_ :: modal_closed ++ t ++ [_])%list.
           unfold trace; cbn [fst snd app]. rewrite <- !app_assoc. reflexivity.
        -- split; [reflexivity |]. split; [intros [H | H]; discriminate |].
           intros _ _ _. eexists [_; _]. reflexivity.
      * destruct (Hload s) as (t & s2 & ->).
        split; [reflexivity |]. split; [intros [H | H]; discriminate |].
        intros _ _ _. eexists (modal_closed ++ t ++ [_])%list.
        unfold trace; cbn [fst snd app]. rewrite <- !app_assoc. reflexivity.
    + split; [reflexivity |]. split; [intros [H | H]; discriminate |].
      intros _ _ _. eexists [_]. reflexivity.
  - unfold valid_amount in Hvalid. apply negb_false_iff in Hvalid.
    unfold handleTransaction. rewrite Hvalid, run_notify.
    split; [reflexivity |]. split; [intros [H | H]; discriminate |].
    intros _ _ H. discriminate.
Qed.

(** X12.  A transfer whose destination does not parse to a number above
    zero is turned down after the processing flag was raised: the screen
    shows [Please enter a valid account ID], sends nothing, keeps the
    modal open and lowers the flag. *)
Theorem transfer_needs_valid_destination {S : Type} (srv : Server S) (u : UserData)
    (a : Account) (amount toAccountId description : string) (s : S) :
  valid_amount (parseFloat amount) = true ->
  Js.isNaN (parseInt toAccountId) || Js.leb (parseInt toAccountId) (Js.ofZ 0) = true ->
  run srv (handle (Some u) (Some a) (Some transfer_modal) amount toAccountId description) s
  = (Returned tt,
     [Acted (setProcessing true);
      notice Platform_OS "Invalid Account ID" "Please enter a valid account ID"
        "Please enter a valid account ID";
      Acted (setProcessing false)], s).
Proof.
  intros Hvalid Hbad. rewrite (handle_run srv u a _ amount toAccountId description s Hvalid).
  cbn [valid_destination]. rewrite Hbad. reflexivity.
Qed.

(** X13.  When the request of a submitted form fails, the screen shows
    the error and lowers the processing flag: the modal is not closed,
    the wallet is not loaded again, and no success is reported. *)
Theorem failed_submission_keeps_modal {S : Type} (srv : Server S) (u : UserData) (a : Account)
    (modalType : option TransactionModalType) (amount toAccountId description : string)
    (s s1 : S) (rq : Request) (fallback : string) (r : Exn + Response) :
  valid_amount (parseFloat amount) = true ->
  valid_destination modalType (parseInt toAccountId) = true ->
  submission backendURL toString u a modalType (parseFloat amount) (parseInt toAccountId)
    description = Some (rq, fallback) ->
  srv s rq = (r, s1) ->
  succeeded r = false ->
  exists e,
    answered fallback r = Threw e /\
    run srv (handle (Some u) (Some a) modalType amount toAccountId description) s
    = (Returned tt,
       [Acted (setProcessing true); Fetched rq r;
        notice Platform_OS "Error" ("Error: " ++ message e) (message e);
        Acted (setProcessing false)], s1).
Proof.
  intros Hvalid Hdest Hsub Hsrv Hfail.
  destruct (answered_failed fallback r Hfail) as [e He]. exists e. split; [exact He |].
  rewrite (handle_run srv u a _ amount toAccountId description s Hvalid).
  rewrite Hdest, Hsub, Hsrv, He. reflexivity.
Qed.

(** X14.  When the request of a submitted form succeeds, the screen
    closes the modal, loads the wallet again and then reports success,
    whether or not that load went well: an error of the load is shown by
    the load itself and does not stop the success notice. *)
Theorem successful_submission_reloads {S : Type} (srv : Server S) (u : UserData) (a : Account)
    (modalType : option TransactionModalType) (amount toAccountId description : string)
    (s s1 : S) (rq : Request) (fallback : string) (r : Exn + Response) :
  valid_amount (parseFloat amount) = true ->
  valid_destination modalType (parseInt toAccountId) = true ->
  submission backendURL toString u a modalType (parseFloat amount) (parseInt toAccountId)
    description = Some (rq, fallback) ->
  srv s rq = (r, s1) ->
  succeeded r = true ->
  exists reload s2,
    run srv (load (Some u)) s1 = (Returned tt, reload, s2) /\
    run srv (handle (Some u) (Some a) modalType amount toAccountId description) s
    = (Returned tt,
       ([Acted (setProcessing true); Fetched rq r] ++ modal_closed ++ reload ++
        [notice Platform_OS "Success" "Transaction completed successfully!"
           "Transaction completed successfully!";
         Acted (setProcessing false)])%list, s2).
Proof.
  intros Hvalid Hdest Hsub Hsrv Hok.
  destruct (answered_succeeded fallback r Hok) as (response & j & _ & _ & Hj).
  pose proof (loadData_returns srv (Some u) s1) as Ho.
  destruct (run srv (load (Some u)) s1) as [[o reload] s2] eqn:Hload.
  unfold outcome in Ho; cbn in Ho. subst o.
  exists reload, s2. split; [reflexivity |].
  rewrite (handle_run srv u a _ amount toAccountId description s Hvalid).
  rewrite Hdest, Hsub, Hsrv, Hj, Hload. reflexivity.
Qed.

(** X15.  Submitted while no modal is chosen, the form sends no request
    of its own and still closes the modal, loads the wallet again and
    reports success. *)
Theorem submission_without_modal {S : Type} (srv : Server S) (u : UserData) (a : Account)
    (amount toAccountId description : string) (s : S) :
  valid_amount (parseFloat amount) = true ->
  exists reload s2,
    run srv (load (Some u)) s = (Returned tt, reload, s2) /\
    run srv (handle (Some u) (Some a) None amount toAccountId description) s
    = (Returned tt,
       ([Acted (setProcessing true)] ++ modal_closed ++ reload ++
        [notice Platform_OS "Success" "Transaction completed successfully!"
           "Transaction completed successfully!";
         Acted (setProcessing false)])%list, s2).
Proof.
  intros Hvalid.
  pose proof (loadData_returns srv (Some u) s) as Ho.
  destruct (run srv (load (Some u)) s) as [[o reload] s2] eqn:Hload.
  unfold outcome in Ho; cbn in Ho. subst o.
  exists reload, s2. split; [reflexivity |].
  rewrite (handle_run srv u a _ amount toAccountId description s Hvalid).
  cbn [valid_destination submission]. rewrite Hload. reflexivity.
Qed.

(** X16.  A submitted form that passes its checks sends its request
    right after raising the processing flag.  Whatever the kind of
    submission and whatever the currency of the account on display, that
    request is a POST for the user, debits or credits the account on
    display, names the currency KZT, carries the parsed amount as a
    number, and has a description exactly when the one typed is not
    empty. *)
Theorem submission_request {S : Type} (srv : Server S) (u : UserData) (a : Account)
    (m : TransactionModalType) (amount toAccountId description : string) (s : S) :
  valid_amount (parseFloat amount) = true ->
  valid_destination (Some m) (parseInt toAccountId) = true ->
  exists rq r rest,
    trace (run srv (handle (Some u) (Some a) (Some m) amount toAccountId description) s)
    = Acted (setProcessing true) :: Fetched rq r :: rest /\
    method rq = POST /\
    param "user_id" (query (url rq)) = Some (toString (id u)) /\
    body_field (match m with transfer_modal => "from_account_id" | _ => "account_id" end) rq
    = Some (json_number (acc_id a)) /\
    body_field "currency" rq = Some (JString "KZT") /\
    body_field "amount" rq = Some (json_number (parseFloat amount)) /\
    body_field "description" rq
    = (if String.eqb description "" then None else Some (JString description)).
Proof.
  intros Hvalid Hdest.
  rewrite (handle_run srv u a _ amount toAccountId description s Hvalid), Hdest.
  destruct (submission _ _ _ _ _ _ _ _) as [[rq fallback] |] eqn:Hsub;
    [| destruct m; discriminate].
  exists rq, (srv s rq).1.
  assert (Hrq : method rq = POST /\
                param "user_id" (query (url rq)) = Some (toString (id u)) /\
                body_field (match m with
                            | transfer_modal => "from_account_id"
                            | _ => "account_id"
                            end) rq = Some (json_number (acc_id a)) /\
                body_field "currency" rq = Some (JString "KZT") /\
                body_field "amount" rq = Some (json_number (parseFloat amount)) /\
                body_field "description" rq
                = (if String.eqb description "" then None else Some (JString description))).
  { destruct m; cbn [submission] in Hsub; injection Hsub as <- <-;
      unfold body_field; cbn; unfold or_undefined;
      destruct (String.eqb description ""); repeat split. }
  destruct (srv s rq) as [r s1]; cbn [fst].
  destruct (answered fallback r) as [j | e].
  - destruct (run srv (load (Some u)) s1) as [[o t] s2].
    eexists. split; [reflexivity | exact Hrq].
  - eexists. split; [reflexivity | exact Hrq].
Qed.

End WalletBehaviour.

(** ** The analysis request *)

Section AnalysisRequest.

Variable backendURL : string.
Variable toString : Js.number -> string.

(** X17.  A financial analysis call issues one POST without a body.  Its
    query always names the user and the months to look back, 6 when the
    caller leaves them out and the given number otherwise, and carries
    the specific query exactly when it is a non-empty string; a response
    that is not [ok] and has no string detail gives
    [Failed to fetch financial analysis]. *)
Theorem analysis_request_shape {S : Type} (srv : Server S) (s : S) (userId : Js.number)
    (monthsBack : option Js.number) (specificQuery : option string) :
  let rq := analysis_request backendURL toString userId monthsBack specificQuery in
  let q := query (url rq) in
  run srv (getFinancialAnalysis backendURL toString userId monthsBack specificQuery) s
  = (answered "Failed to fetch financial analysis" (srv s rq).1,
     [Fetched rq (srv s rq).1], (srv s rq).2) /\
  method rq = POST /\ body rq = None /\
  param "user_id" q = Some (toString userId) /\
  param "months_back" q = Some (toString (default (Js.ofZ 6) monthsBack)) /\
  param "specific_query" q
  = match specificQuery with
    | Some t => if String.eqb t "" then None else Some t
    | None => None
    end.
Proof.
  cbv zeta. split; [unfold getFinancialAnalysis; apply run_call |].
  unfold analysis_request, analysis_params. cbn [method body url query].
  destruct specificQuery as [t |]; [destruct (String.eqb t "") eqn:Ht |];
    cbn; rewrite ?Ht; repeat split.
Qed.

End AnalysisRequest.

(** ** Error messages *)

Section ErrorMessageProperties.

Variable ToString : JSON -> Exn + string.
Variable JSON_stringify : JSON -> string.

Local Abbreviation parse := (parseErrorMessage ToString JSON_stringify).
Local Abbreviation choices := (detail_choices JSON_stringify).
Local Abbreviation texts := (element_texts ToString).
Local Abbreviation choice := (detail_value JSON_stringify).

Lemma detail_choices_of_msgs (items : list JSON) (msgs : list string) :
  Forall2 (fun e m => opt_prop "msg" (Some e) = Some (JString m) /\ m <> "") items msgs ->
  choices items = inr (map JString msgs).
Proof.
  induction 1 as [| e m items msgs [Hmsg Hne] _ IH]; [reflexivity |].
  cbn [detail_choices]. unfold detail_choice, prop, detail_value, chosen_value.
  destruct e as [| b | x | str | its | fields]; try discriminate.
  rewrite Hmsg. cbn [truthy_value].
  destruct (String.eqb_spec m ""); [contradiction |]. cbn [negb].
  rewrite IH. reflexivity.
Qed.

Lemma element_texts_of_strings (msgs : list string) : texts (map JString msgs) = inr msgs.
Proof.
  induction msgs as [| m msgs IH]; [reflexivity |].
  cbn [map element_texts element_text]. rewrite IH. reflexivity.
Qed.

(** X18.  For an error body whose detail is a list of entries that each
    have a non-empty text under [msg] (the shape of a validation error),
    the message is these texts in order, one per line, whatever the
    status code and whatever else the body holds; for an empty list it is
    the empty text. *)
Theorem validation_errors_joined (fields : list (string * JSON)) (items : list JSON)
    (msgs : list string) (statusCode : Js.number) :
  assoc "detail" fields = Some (JArray items) ->
  Forall2 (fun e m => opt_prop "msg" (Some e) = Some (JString m) /\ m <> "") items msgs ->
  parse (JObject fields) statusCode = inr (JString (String.concat newline msgs)).
Proof.
  intros Hdetail Hmsgs. unfold parseErrorMessage, prop. cbn [opt_prop].
  rewrite Hdetail, (detail_choices_of_msgs items msgs Hmsgs), element_texts_of_strings.
  reflexivity.
Qed.

Lemma null_entry_or_none (items : list JSON) :
  In JNull items \/ Forall (fun e => e <> JNull) items.
Proof.
  induction items as [| e items [IH | IH]]; [right; constructor | left; right; exact IH |].
  destruct e; [left; left; reflexivity | ..]; right; constructor; (discriminate || exact IH).
Qed.

Lemma detail_choices_null (items : list JSON) :
  In JNull items -> exists err, choices items = inl err.
Proof.
  induction items as [| e items IH]; intros Hin; [destruct Hin |].
  cbn [detail_choices]. destruct Hin as [-> | Hin]; [eexists; reflexivity |].
  destruct (detail_choice JSON_stringify e) as [err | v]; [eauto |].
  destruct (IH Hin) as [err ->]. eauto.
Qed.

Lemma detail_choices_defined (items : list JSON) :
  Forall (fun e => e <> JNull) items -> choices items = inr (map choice items).
Proof.
  induction 1 as [| e items Hne _ IH]; [reflexivity |].
  cbn [detail_choices map]. rewrite IH.
  unfold detail_choice, prop, detail_value. destruct e; [contradiction | ..]; reflexivity.
Qed.

Lemma element_texts_throw (values : list JSON) :
  (exists err, texts values = inl err) <->
  (exists v err, In v values /\ element_text ToString v = inl err).
Proof.
  induction values as [| v values IH]; cbn [element_texts In].
  - split; [intros [err H]; discriminate | intros (v & err & [] & _)].
  - destruct (element_text ToString v) as [err | t] eqn:Hv.
    + split; [intros _; exists v, err; auto | eauto].
    + destruct (texts values) as [err | ts].
      * split; [intros _ | eauto].
        destruct (proj1 IH (ex_intro _ err eq_refl)) as (v' & err' & Hin & Hv').
        exists v', err'. auto.
      * split; [intros [err H]; discriminate |].
        intros (v' & err' & [<- | Hin] & Hv'); [congruence |].
        destruct (proj2 IH (ex_intro _ v' (ex_intro _ err' (conj Hin Hv')))) as [err H].
        discriminate.
Qed.

Lemma chosen_value_truthy (e v : JSON) : chosen_value e = Some v -> truthy_value v = true.
Proof.
  unfold chosen_value.
  destruct (opt_prop "msg" (Some e)) as [m |];
    [destruct (truthy_value m) eqn:Hm; [intros [= <-]; exact Hm |] |];
    (destruct (opt_prop "message" (Some e)) as [m' |];
     [destruct (truthy_value m') eqn:Hm'; [intros [= <-]; exact Hm' |] |]; discriminate).
Qed.

(** X19.  Making the message throws exactly in these cases: the body is
    [null]; its detail is a list with a [null] entry; its detail is a list
    with an entry whose [msg], or else [message], is truthy, is not a
    string, and cannot be converted to one.  In every other case it
    yields a value. *)
Theorem parseErrorMessage_throws_on_null_only (error : JSON) (statusCode : Js.number) :
  let has_bad_entry :=
    exists items,
      opt_prop "detail" (Some error) = Some (JArray items) /\
      (In JNull items \/
       exists e v err,
         In e items /\ chosen_value e = Some v /\
         (forall str, v <> JString str) /\ ToString v = inl err) in
  (error = JNull \/ has_bad_entry) <-> (exists err, parse error statusCode = inl err).
Proof.
  cbv zeta. split.
  - intros [-> | (items & Hdetail & Hbad)]; [eexists; reflexivity |].
    unfold parseErrorMessage, prop.
    destruct error as [| b | x | str | its | fields]; try discriminate.
    rewrite Hdetail.
    destruct (null_entry_or_none items) as [Hnull | Hall].
    { destruct (detail_choices_null items Hnull) as [err ->]. eauto. }
    destruct Hbad as [Hnull | (e & v & err & Hin & Hchosen & Hns & Hts)].
    { destruct (detail_choices_null items Hnull) as [err ->]. eauto. }
    rewrite (detail_choices_defined items Hall).
    assert (Hthrow : exists err', texts (map choice items) = inl err').
    { apply element_texts_throw. exists v, err. split.
      - apply in_map_iff. exists e. split; [| exact Hin]. unfold detail_value. rewrite Hchosen.
        reflexivity.
      - pose proof (chosen_value_truthy e v Hchosen) as Ht.
        destruct v; try exact Hts; [discriminate | exfalso; eapply Hns; reflexivity]. }
    destruct Hthrow as [err' ->]. eauto.
  - intros [err Herr]. unfold parseErrorMessage, prop in Herr.
    destruct error as [| b | x | str | its | fields]; [left; reflexivity | ..];
      try (cbn in Herr; discriminate).
    right. cbn [opt_prop] in *.
    destruct (assoc "detail" fields) as [[| b | x | str | items | fields'] |] eqn:Hd;
      try (destruct (assoc "message" fields) as [m |];
           [destruct (truthy_value m) |]; discriminate);
      try discriminate.
    exists items. split; [reflexivity |].
    destruct (null_entry_or_none items) as [Hnull | Hall]; [left; exact Hnull | right].
    rewrite (detail_choices_defined items Hall) in Herr.
    destruct (texts (map choice items)) as [err' |] eqn:Ht; [| discriminate].
    destruct (proj1 (element_texts_throw _) (ex_intro _ err' Ht)) as (v & err'' & Hin & Hv).
    apply in_map_iff in Hin as (e & <- & Hin).
    unfold detail_value in Hv. destruct (chosen_value e) as [v |] eqn:Hchosen;
      [| discriminate].
    exists e, v, err''. split; [exact Hin |]. split; [exact Hchosen |].
    destruct v; try discriminate; split; try (intros ?; discriminate); exact Hv.
Qed.

End ErrorMessageProperties.

(** ** The crypto portfolio *)

Section PortfolioProperties.

Variable toUpperCase : string -> string.
Variable StringToNumber : string -> Js.number.

Local Abbreviation portfolio := (getCryptoPortfolio toUpperCase StringToNumber).
Local Abbreviation crypto := (is_crypto toUpperCase).
Local Abbreviation value_of it := (default (Js.ofZ 0) (item_kztValue it)).

Lemma total_of_nothing (items : list PortfolioItem) :
  Forall (fun it => item_kztValue it = None) items ->
  fold_left (fun sum it => Js_add sum (value_of it)) items (Js.ofZ 0) = S754_zero false.
Proof.
  induction 1 as [| it items Hit _ IH]; [reflexivity |].
  cbn [fold_left]. rewrite Hit. exact IH.
Qed.

Lemma total_stays_nan (items : list PortfolioItem) :
  fold_left (fun sum it => Js_add sum (value_of it)) items S754_nan = S754_nan.
Proof. induction items as [| it items IH]; [reflexivity | exact IH]. Qed.

Lemma total_with_nan (items : list PortfolioItem) (it : PortfolioItem) (start : Js.number) :
  In it items -> item_kztValue it = Some S754_nan ->
  fold_left (fun sum it => Js_add sum (value_of it)) items start = S754_nan.
Proof.
  revert start. induction items as [| it' items IH]; intros start Hin Hnan; [destruct Hin |].
  cbn [fold_left]. destruct Hin as [-> | Hin]; [| apply IH; assumption].
  rewrite Hnan. cbn [default from_option Datatypes.id].
  replace (Js_add start S754_nan) with S754_nan by (destruct start; reflexivity).
  apply total_stays_nan.
Qed.

(** X20.  The portfolio has one item per account whose type reads CRYPTO
    in upper case, in the order of the accounts, whatever the rates.
    While no rates are loaded no item has a rate or a value in KZT and
    the total is zero. *)
Theorem portfolio_without_rates (accounts : list Account)
    (ratesKZT : option (gmap SupportedCrypto Js.number)) :
  map item_account (portfolio accounts ratesKZT).1 = List.filter crypto accounts /\
  Forall (fun it => item_rate it = None /\ item_kztValue it = None) (portfolio accounts None).1 /\
  (portfolio accounts None).2 = S754_zero false.
Proof.
  unfold getCryptoPortfolio. cbn [fst snd]. split; [| split].
  - rewrite map_map. cbn [portfolio_item item_account]. apply map_id.
  - apply Forall_forall. intros it Hin. apply list_elem_of_In, in_map_iff in Hin.
    destruct Hin as (a & <- & _). split; reflexivity.
  - apply total_of_nothing, Forall_forall. intros it Hin.
    apply list_elem_of_In, in_map_iff in Hin. destruct Hin as (a & <- & _). reflexivity.
Qed.

(** X21.  One crypto account is enough to spoil the total: when its
    balance does not read as a number and its currency has a rate that is
    neither zero nor NaN, the total of the portfolio is NaN. *)
Theorem portfolio_total_nan (accounts : list Account) (rates : gmap SupportedCrypto Js.number)
    (a : Account) (k : SupportedCrypto) (r : Js.number) :
  In a accounts ->
  crypto a = true ->
  StringToNumber (acc_balance a) = S754_nan ->
  symbol_of_name (toUpperCase (acc_currency a)) = Some k ->
  rates !! k = Some r ->
  Js.truthy r = true ->
  (portfolio accounts (Some rates)).2 = S754_nan.
Proof.
  intros Hin Hcrypto Hbal Hsym Hrate Htruthy.
  unfold getCryptoPortfolio. cbn [snd].
  apply (total_with_nan _ (portfolio_item toUpperCase StringToNumber (Some rates) a)).
  - apply in_map, filter_In. split; assumption.
  - unfold portfolio_item. cbn [item_kztValue mbind option_bind].
    rewrite Hsym. cbn [mbind option_bind]. rewrite Hrate, Htruthy, Hbal. reflexivity.
Qed.

(** X22.  A rate of zero hides the value of an account just as a missing
    rate does: the item has no value in KZT, and adds nothing to a total
    of zero. *)
Theorem zero_rate_counts_as_missing (rates : gmap SupportedCrypto Js.number) (a : Account)
    (k : SupportedCrypto) (sign : bool) :
  crypto a = true ->
  symbol_of_name (toUpperCase (acc_currency a)) = Some k ->
  rates !! k = Some (S754_zero sign : Js.number) ->
  portfolio [a] (Some rates)
  = ([{| item_account := a; item_symbol := toUpperCase (acc_currency a);
         item_balance := StringToNumber (acc_balance a);
         item_rate := Some (S754_zero sign); item_kztValue := None |}],
     S754_zero false).
Proof.
  intros Hcrypto Hsym Hrate. unfold getCryptoPortfolio. cbn [List.filter].
  rewrite Hcrypto. cbn [map fold_left]. unfold portfolio_item.
  cbn [mbind option_bind]. rewrite Hsym. cbn [mbind option_bind]. rewrite Hrate.
  reflexivity.
Qed.

End PortfolioProperties.

(** ** Concrete runs of the further behaviour *)

Lemma convert_accepts_nan_amount_witness :
  body_field "amount" (withdrawal_leg Sample.backendURL Sample.toString Scenario.nan_conversion)
  = Some JNull /\
  exists rest,
    trace (run Sample.scripted
             (convertCryptoToKZT Sample.backendURL Sample.toString Scenario.nan_conversion)
             Sample.both_accepted)
    = Fetched (withdrawal_leg Sample.backendURL Sample.toString Scenario.nan_conversion)
        (replies (Sample.receipt 41)) :: rest.
Proof.
  destruct (convert_accepts_nan_amount Sample.backendURL Sample.toString Sample.scripted
              Scenario.nan_conversion Sample.both_accepted (or_introl eq_refl))
    as [Htrace Hbody].
  split; [exact Hbody | exact Htrace].
Defined.

Lemma convert_failed_withdrawal_ends_run_witness :
  run Sample.scripted (convertCryptoToKZT Sample.backendURL Sample.toString Sample.conversion)
    [refuses "Insufficient funds"]
  = (Threw (Error "Insufficient funds"),
     [Fetched (withdrawal_leg Sample.backendURL Sample.toString Sample.conversion)
        (refuses "Insufficient funds")], []).
Proof.
  destruct (convert_failed_withdrawal_ends_run Sample.backendURL Sample.toString
              Sample.scripted Sample.conversion [refuses "Insufficient funds"] []
              (refuses "Insufficient funds") eq_refl eq_refl eq_refl) as (e & He & Hrun).
  vm_compute in He. injection He as <-. exact Hrun.
Defined.

Lemma convert_does_not_check_rate_witness :
  exists rest,
    trace (run Sample.scripted
             (convertCryptoToKZT Sample.backendURL Sample.toString Sample.conversion)
             Sample.both_accepted)
    = Fetched (withdrawal_leg Sample.backendURL Sample.toString Sample.conversion)
        (replies (Sample.receipt 41)) :: rest.
Proof.
  destruct (convert_does_not_check_rate Sample.backendURL Sample.toString Sample.scripted
              Sample.conversion Sample.both_accepted eq_refl) as [Htrace _].
  exact Htrace.
Defined.

Lemma backend_call_refused_witness :
  run Sample.scripted
    (createDeposit Sample.backendURL Sample.toString (Js.ofZ 7) Sample.small_deposit)
    [inr Scenario.unprocessable]
  = (Threw (Error "Failed to create deposit"),
     [Fetched (deposit_request Sample.backendURL Sample.toString (Js.ofZ 7) Sample.small_deposit)
        (inr Scenario.unprocessable)], []).
Proof.
  destruct (backend_call_refused Sample.backendURL Sample.toString Sample.scripted
              [inr Scenario.unprocessable] [] Scenario.unprocessable (Js.ofZ 7) Sample.user
              eq_refl) as [Hdeposit _].
  exact (Hdeposit Sample.small_deposit eq_refl).
Defined.

Lemma rates_call_failures_witness :
  outcome (run Sample.scripted (getCryptoRatesKZT [BTC; ETH]) [refuses "Too many requests"])
  = Threw (Error "Failed to fetch crypto rates").
Proof.
  destruct (rates_call_failures Sample.scripted [BTC; ETH] [refuses "Too many requests"])
    as (_ & _ & _ & Hrefused & _).
  exact (Hrefused _ eq_refl eq_refl).
Defined.

Lemma rates_of_no_symbol_witness :
  run Sample.scripted (getCryptoRatesKZT []) [replies JNull]
  = (Returned ∅, [Fetched (rates_request []) (replies JNull)], []).
Proof.
  destruct (rates_of_no_symbol Sample.scripted [replies JNull] [] JNull eq_refl)
    as [Hrun _].
  exact Hrun.
Defined.

Lemma rates_ignore_order_witness :
  exists rates,
    outcome (run Sample.scripted (getCryptoRatesKZT [BTC; ETH]) [replies Scenario.two_rates])
    = Returned rates /\
    outcome (run Sample.scripted (getCryptoRatesKZT [ETH; BTC; ETH])
               [replies Scenario.two_rates])
    = Returned rates.
Proof.
  apply (rates_ignore_order Sample.scripted [replies Scenario.two_rates] []
           [replies Scenario.two_rates] [] Scenario.two_rates [BTC; ETH] [ETH; BTC; ETH]).
  - intros sym. rewrite !list_elem_of_In. cbn [In]. tauto.
  - reflexivity.
  - reflexivity.
  - reflexivity.
Defined.

Lemma transaction_query_shape_witness :
  param "limit"
    (transaction_params Sample.toString
       (Some {| account_id := None; transaction_type := Some "deposit";
                skip := None; limit := Some (Js.ofZ 0) |}))
  = Some "0".
Proof.
  destruct (transaction_query_shape Sample.toString
              (Some {| account_id := None; transaction_type := Some "deposit";
                       skip := None; limit := Some (Js.ofZ 0) |}))
    as (_ & _ & Hlimit & _).
  exact (Hlimit (Js.ofZ 0) eq_refl).
Defined.

Lemma loadData_accounts_failure_witness :
  run Sample.scripted
    (loadData Sample.backendURL Sample.toString Sample.Platform_OS Sample.ToNumber
       (Some Sample.user)) [refuses "Service unavailable"]
  = (Returned tt,
     [Acted (setLoading true);
      Fetched (accounts_request Sample.backendURL Sample.toString Sample.user)
        (refuses "Service unavailable");
      Acted (alert "Error loading data: Service unavailable");
      Acted (setLoading false)], []).
Proof.
  destruct (loadData_accounts_failure Sample.backendURL Sample.toString Sample.Platform_OS
              Sample.ToNumber Sample.scripted Sample.user [refuses "Service unavailable"] []
              (refuses "Service unavailable") eq_refl eq_refl eq_refl) as (e & He & Hrun).
  vm_compute in He. injection He as <-. exact Hrun.
Defined.

Lemma loadData_transactions_failure_witness :
  run Sample.scripted
    (loadData Sample.backendURL Sample.toString Sample.Platform_OS Sample.ToNumber
       (Some Sample.user))
    [replies (JArray [Sample.new_account]); refuses "Service unavailable"]
  = (Returned tt,
     [Acted (setLoading true);
      Fetched (accounts_request Sample.backendURL Sample.toString Sample.user)
        (replies (JArray [Sample.new_account]));
      Fetched (transactions_request Sample.backendURL Sample.toString (Js.ofZ 7) first_hundred)
        (refuses "Service unavailable");
      Acted (alert "Error loading data: Service unavailable");
      Acted (setLoading false)], []).
Proof.
  destruct (loadData_transactions_failure Sample.backendURL Sample.toString Sample.Platform_OS
              Sample.ToNumber Sample.scripted Sample.user
              [replies (JArray [Sample.new_account]); refuses "Service unavailable"]
              [refuses "Service unavailable"] [] Sample.new_account []
              (refuses "Service unavailable") eq_refl eq_refl eq_refl eq_refl)
    as (e & He & Hrun).
  vm_compute in He. injection He as <-. exact Hrun.
Defined.

Lemma loadData_null_transactions_witness :
  exists e,
    run Sample.scripted
      (loadData Sample.backendURL Sample.toString Sample.Platform_OS Sample.ToNumber
         (Some Sample.user))
      [replies (JArray [Sample.new_account]); replies JNull]
    = (Returned tt,
       [Acted (setLoading true);
        Fetched (accounts_request Sample.backendURL Sample.toString Sample.user)
          (replies (JArray [Sample.new_account]));
        Fetched (transactions_request Sample.backendURL Sample.toString (Js.ofZ 7) first_hundred)
          (replies JNull);
        notice Sample.Platform_OS "Error loading data"
          ("Error loading data: " ++ load_error_text e) (load_error_text e);
        Acted (setLoading false)], []).
Proof.
  exact (loadData_null_transactions Sample.backendURL Sample.toString Sample.Platform_OS
           Sample.ToNumber Sample.scripted Sample.user
           [replies (JArray [Sample.new_account]); replies JNull] [replies JNull] []
           Sample.new_account [] eq_refl eq_refl eq_refl).
Defined.

(** The sample printer on a fraction with leading zeros. *)
Example toString_of_small_fraction :
  Sample.toString (Js.num 1 (-7)) = "0.0078125" /\ Sample.toString (Js.num 1 (-3)) = "0.125".
Proof. split; reflexivity. Qed.

Section SampleSubmissions.

Local Abbreviation handle :=
  (handleTransaction Sample.backendURL Sample.toString Sample.parseDigits Sample.parseDigits
     Sample.Platform_OS Sample.ToNumber (Some Sample.user) (Some Sample.account)).

Local Abbreviation deposit_of_five :=
  (deposit_request Sample.backendURL Sample.toString (Js.ofZ 7)
     {| dep_account_id := Js.ofZ 12; dep_amount := Js.ofZ 5; dep_currency := "KZT";
        dep_description := None |}).

Lemma handleTransaction_never_throws_witness :
  exists middle,
    trace (run Sample.scripted (handle (Some deposit_modal) "5" "" "")
             [refuses "Insufficient funds"])
    = (Acted (setProcessing true) :: middle ++ [Acted (setProcessing false)])%list.
Proof.
  destruct (handleTransaction_never_throws Sample.backendURL Sample.toString Sample.parseDigits
              Sample.parseDigits Sample.Platform_OS Sample.ToNumber Sample.scripted
              (Some Sample.user) (Some Sample.account) (Some deposit_modal) "5" "" ""
              [refuses "Insufficient funds"]) as (_ & _ & Hflag).
  exact (Hflag (mk_is_Some _ _ eq_refl) (mk_is_Some _ _ eq_refl) eq_refl).
Defined.

Lemma transfer_needs_valid_destination_witness :
  run Sample.scripted (handle (Some transfer_modal) "5" "abc" "") Sample.both_accepted
  = (Returned tt,
     [Acted (setProcessing true);
      Acted (alert "Please enter a valid account ID");
      Acted (setProcessing false)], Sample.both_accepted).
Proof.
  exact (transfer_needs_valid_destination Sample.backendURL Sample.toString Sample.parseDigits
           Sample.parseDigits Sample.Platform_OS Sample.ToNumber Sample.scripted
           Sample.user Sample.account "5" "abc" "" Sample.both_accepted eq_refl eq_refl).
Defined.

Lemma failed_submission_keeps_modal_witness :
  run Sample.scripted (handle (Some deposit_modal) "5" "" "") [refuses "Insufficient funds"]
  = (Returned tt,
     [Acted (setProcessing true);
      Fetched deposit_of_five (refuses "Insufficient funds");
      Acted (alert "Error: Insufficient funds");
      Acted (setProcessing false)], []).
Proof.
  destruct (failed_submission_keeps_modal Sample.backendURL Sample.toString Sample.parseDigits
              Sample.parseDigits Sample.Platform_OS Sample.ToNumber Sample.scripted
              Sample.user Sample.account (Some deposit_modal) "5" "" ""
              [refuses "Insufficient funds"] [] _ _ (refuses "Insufficient funds")
              eq_refl eq_refl eq_refl eq_refl eq_refl) as (e & He & Hrun).
  vm_compute in He. injection He as <-. exact Hrun.
Defined.

Lemma successful_submission_reloads_witness :
  exists reload,
    run Sample.scripted (handle (Some deposit_modal) "5" "" "") Scenario.deposit_then_reload
    = (Returned tt,
       ([Acted (setProcessing true); Fetched deposit_of_five (replies (Sample.receipt 43))]
        ++ modal_closed ++ reload ++
        [Acted (alert "Transaction completed successfully!");
         Acted (setProcessing false)])%list, []) /\
    In (Acted (setAccount (Some Sample.new_account))) reload.
Proof.
  destruct (successful_submission_reloads Sample.backendURL Sample.toString Sample.parseDigits
              Sample.parseDigits Sample.Platform_OS Sample.ToNumber Sample.scripted
              Sample.user Sample.account (Some deposit_modal) "5" "" ""
              Scenario.deposit_then_reload _ _ _ (replies (Sample.receipt 43))
              eq_refl eq_refl eq_refl eq_refl eq_refl) as (reload & s2 & Hload & Hrun).
  vm_compute in Hload. injection Hload as <- <-.
  eexists. split; [exact Hrun |]. vm_compute. tauto.
Defined.

Lemma submission_without_modal_witness :
  exists reload s2,
    run Sample.scripted (handle None "5" "" "") Sample.first_visit
    = (Returned tt,
       ([Acted (setProcessing true)] ++ modal_closed ++ reload ++
        [Acted (alert "Transaction completed successfully!");
         Acted (setProcessing false)])%list, s2) /\
    length (requests reload) = 3%nat.
Proof.
  destruct (submission_without_modal Sample.backendURL Sample.toString Sample.parseDigits
              Sample.parseDigits Sample.Platform_OS Sample.ToNumber Sample.scripted
              Sample.user Sample.account "5" "" "" Sample.first_visit eq_refl)
    as (reload & s2 & Hload & Hrun).
  vm_compute in Hload. injection Hload as <- <-.
  eexists _, _. split; [exact Hrun | reflexivity].
Defined.

Lemma submission_request_witness :
  exists rq r rest,
    trace (run Sample.scripted (handle (Some deposit_modal) "5" "" "")
             [refuses "Insufficient funds"])
    = Acted (setProcessing true) :: Fetched rq r :: rest /\
    body_field "currency" rq = Some (JString "KZT") /\
    body_field "description" rq = None.
Proof.
  destruct (submission_request Sample.backendURL Sample.toString Sample.parseDigits
              Sample.parseDigits Sample.Platform_OS Sample.ToNumber Sample.scripted
              Sample.user Sample.account deposit_modal "5" "" ""
              [refuses "Insufficient funds"] eq_refl eq_refl)
    as (rq & r & rest & Htrace & _ & _ & _ & Hcurrency & _ & Hdescription).
  exists rq, r, rest. split; [exact Htrace |]. split; [exact Hcurrency | exact Hdescription].
Defined.

End SampleSubmissions.

Lemma validation_errors_joined_witness :
  parseErrorMessage Scenario.ToString Scenario.JSON_stringify Scenario.validation_error
    (Js.ofZ 422)
  = inr (JString ("Input should be greater than 0" ++ newline ++ "Field required")).
Proof.
  refine (validation_errors_joined Scenario.ToString Scenario.JSON_stringify
            [("detail", JArray Scenario.validation_entries)] Scenario.validation_entries
            ["Input should be greater than 0"; "Field required"] (Js.ofZ 422) eq_refl _).
  repeat constructor; discriminate.
Defined.

Lemma parseErrorMessage_throws_on_null_only_witness :
  exists err,
    parseErrorMessage Scenario.ToString Scenario.JSON_stringify
      (JObject [("detail", JArray [JNull])]) (Js.ofZ 422) = inl err.
Proof.
  apply (parseErrorMessage_throws_on_null_only Scenario.ToString Scenario.JSON_stringify).
  right. exists [JNull]. split; [reflexivity | left; left; reflexivity].
Defined.

Lemma portfolio_total_nan_witness :
  (getCryptoPortfolio Scenario.toUpperCase Sample.parseDigits
     [Sample.account; Scenario.broken_account] (Some Scenario.btc_rate)).2 = S754_nan.
Proof.
  apply (portfolio_total_nan Scenario.toUpperCase Sample.parseDigits
           [Sample.account; Scenario.broken_account] Scenario.btc_rate
           Scenario.broken_account BTC (Js.ofZ 50000000)).
  - right; left; reflexivity.
  - reflexivity.
  - reflexivity.
  - reflexivity.
  - reflexivity.
  - reflexivity.
Defined.

Lemma zero_rate_counts_as_missing_witness :
  (getCryptoPortfolio Scenario.toUpperCase Sample.parseDigits
     [Scenario.broken_account] (Some Scenario.btc_free)).2 = S754_zero false.
Proof.
  rewrite (zero_rate_counts_as_missing Scenario.toUpperCase Sample.parseDigits
             Scenario.btc_free Scenario.broken_account BTC false eq_refl eq_refl eq_refl).
  reflexivity.
Defined.
